(** * grpc-blog-service: the request handlers of [blog_server.go]

    A shallow embedding of the five RPC handlers ([CreateBlog], [ReadBlog],
    [UpdateBlog], [DeleteBlog], [ListBlog]) together with the parts of
    their collaborators that the handlers observe: object identifiers and
    their hex form, the document-store driver (as an interface with an
    in-memory implementation), the cursor of a scan, and the outgoing
    stream of [ListBlog]. *)

From Stdlib Require Import String Ascii List ZArith NArith Lia Bool.
From Equations Require Import Equations.
Import ListNotations.

Local Open Scope string_scope.
Local Open Scope list_scope.

(** ** Go values shared by every package *)

(** A Go [error] value, identified with its text.  A nil error is [None]
    of [option Err]. *)
Definition Err := string.

(** The [(value, error)] result pair of a fallible call, of which exactly
    one side is meaningful. *)
Inductive result (A : Type) : Type :=
| Ok (a : A)
| Fail (e : Err).
Arguments Ok {A} a.
Arguments Fail {A} e.

(** [context.Context], reduced to what a callee can observe: whether the
    context is done, and why.  [Background] is never done; [Incoming] is
    the per-call context owned by the RPC layer. *)
Inductive Context : Type :=
| Background
| Incoming (done : option Err).

Definition ctx_Err (ctx : Context) : option Err :=
  match ctx with
  | Background => None
  | Incoming done => done
  end.

(** ** Package [encoding/hex] restricted to what [primitive] uses *)
Module hex.

(** The error for a character that is no hex digit.  (Go's text goes on to
    name the offending byte; the text here stands for the error of that
    kind.) *)
Definition ErrInvalidByte : Err := "encoding/hex: invalid byte".

(** [fromHexChar]: both letter cases are accepted. *)
Definition fromHexChar (c : ascii) : option N :=
  let n := N_of_ascii c in
  if ((48 <=? n) && (n <=? 57))%N then Some (n - 48)%N
  else if ((97 <=? n) && (n <=? 102))%N then Some (n - 97 + 10)%N
  else if ((65 <=? n) && (n <=? 70))%N then Some (n - 65 + 10)%N
  else None.

(** One digit of the table ["0123456789abcdef"]. *)
Definition hextable (d : N) : ascii :=
  if (d <? 10)%N then ascii_of_N (48 + d) else ascii_of_N (97 + (d - 10)).

(** [DecodeString] on a string: pairs of digits become bytes.  (An odd
    length is an error of its own in Go; [primitive] only calls it on
    strings of length 24.) *)
Fixpoint DecodeString (s : string) : result (list N) :=
  match s with
  | EmptyString => Ok []
  | String _ EmptyString => Fail "encoding/hex: odd length hex string"
  | String hi (String lo rest) =>
      match fromHexChar hi, fromHexChar lo with
      | Some h, Some l =>
          match DecodeString rest with
          | Ok bs => Ok ((16 * h + l)%N :: bs)
          | Fail e => Fail e
          end
      | _, _ => Fail ErrInvalidByte
      end
  end.

Fixpoint EncodeToString (bs : list N) : string :=
  match bs with
  | [] => EmptyString
  | b :: rest =>
      String (hextable (b / 16)) (String (hextable (b mod 16)) (EncodeToString rest))
  end.

End hex.

(** ** Package [bson/primitive]: object identifiers *)
Module primitive.

(** [type ObjectID [12]byte]; bytes are numbers below 256. *)
Definition ObjectID := list N.

Definition NilObjectID : ObjectID := repeat 0%N 12.

Definition ErrInvalidHex : Err :=
  "the provided hex string is not a valid ObjectID".

(** [ObjectIDFromHex]: the length test comes first, then the digits. *)
Definition ObjectIDFromHex (s : string) : result ObjectID :=
  if negb (String.length s =? 24)%nat then Fail ErrInvalidHex
  else match hex.DecodeString s with
       | Ok b => Ok b
       | Fail e => Fail e
       end.

(** [ObjectID.Hex]: the lower-case hex form. *)
Definition Hex (id : ObjectID) : string := hex.EncodeToString id.

(** The shape of an identifier value: twelve bytes. *)
Definition wf_oid (id : ObjectID) : Prop :=
  List.length id = 12%nat /\ Forall (fun b => (b < 256)%N) id.

End primitive.

(** ** Package [grpc/codes] and [grpc/status] *)
Module codes.

Inductive Code : Type :=
| OK | Canceled | Unknown | InvalidArgument | DeadlineExceeded | NotFound
| AlreadyExists | PermissionDenied | ResourceExhausted | FailedPrecondition
| Aborted | OutOfRange | Unimplemented | Internal | Unavailable | DataLoss
| Unauthenticated.

End codes.

Module status.

(** The error built by [status.Errorf(code, fmt.Sprintf(text + "%v", cause))]:
    its code, the fixed text of the message, and the error value printed
    after it ([None] when the printed value is a nil error). *)
Record Status : Type := Errorf {
  Code : codes.Code;
  Text : string;
  Cause : option Err
}.

End status.

(** What a unary handler returns: a response, or a status error. *)
Inductive reply (A : Type) : Type :=
| Response (a : A)
| Failure (st : status.Status).
Arguments Response {A} a.
Arguments Failure {A} st.

(** The status kind the caller sees. *)
Definition code_of {A : Type} (r : reply A) : codes.Code :=
  match r with
  | Response _ => codes.OK
  | Failure st => status.Code st
  end.

(** The same for a streaming handler, which returns an error or nil. *)
Definition code_of_error (e : option status.Status) : codes.Code :=
  match e with
  | None => codes.OK
  | Some st => status.Code st
  end.

(** ** Package [blogpb]: the wire messages *)
Module blogpb.

Record Blog : Type := {
  Id : string;
  AuthorId : string;
  Title : string;
  Content : string
}.

(** Message fields are pointers: a request may carry no blog at all. *)
Record CreateBlogRequest : Type := { create_Blog : option Blog }.
Record CreateBlogResponse : Type := { created_Blog : Blog }.
Record ReadBlogRequest : Type := { read_BlogId : string }.
Record ReadBlogResponse : Type := { found_Blog : Blog }.
Record UpdateBlogRequest : Type := { update_Blog : option Blog }.
Record UpdateBlogResponse : Type := { updated_Blog : Blog }.
Record DeleteBlogRequest : Type := { delete_BlogId : string }.
Record DeleteBlogResponse : Type := { deleted_BlogId : string }.
Record ListBlogRequest : Type := { }.
Record ListBlogResponse : Type := { listed_Blog : Blog }.

(** The generated getters answer the zero value on a nil receiver. *)
Definition GetId (b : option Blog) : string :=
  match b with Some b => Id b | None => "" end.
Definition GetAuthorId (b : option Blog) : string :=
  match b with Some b => AuthorId b | None => "" end.
Definition GetTitle (b : option Blog) : string :=
  match b with Some b => Title b | None => "" end.
Definition GetContent (b : option Blog) : string :=
  match b with Some b => Content b | None => "" end.

End blogpb.

(** ** The stored form *)

Record blogItem : Type := {
  ID : primitive.ObjectID;
  AuthorID : string;
  Content : string;
  Title : string
}.

Definition blogItemToBlogpb (item : blogItem) : blogpb.Blog :=
  {| blogpb.Id := primitive.Hex (ID item);
     blogpb.AuthorId := AuthorID item;
     blogpb.Title := Title item;
     blogpb.Content := Content item |}.

(** ** Package [mongo]: what the driver hands back *)
Module mongo.

(** [InsertOneResult.InsertedID] is an [interface{}]: the value may or may
    not be an [ObjectID]. *)
Inductive AnyID : Type :=
| IdObjectID (id : primitive.ObjectID)
| IdString (s : string)
| IdInt (z : Z)
| IdNil.

Record InsertOneResult : Type := { InsertedID : AnyID }.

Record UpdateResult : Type := {
  MatchedCount : Z;
  ModifiedCount : Z;
  UpsertedCount : Z
}.

Record DeleteResult : Type := { DeletedCount : Z }.

(** The type assertion [v.(primitive.ObjectID)]. *)
Definition asObjectID (v : AnyID) : option primitive.ObjectID :=
  match v with
  | IdObjectID id => Some id
  | _ => None
  end.

(** A cursor over raw documents of type [R]: the id the server knows it
    by ([Cursor.ID]), the documents not yet visited, the current one, the
    failure that ends the scan early (if the server will report one once
    the batch is drained), the error slot read by [Err], and whether
    [Close] was called. *)
Record Cursor (R : Type) : Type := {
  cursorID : Z;
  batch : list R;
  Current : option R;
  pending : option Err;
  err : option Err;
  closed : bool
}.
Arguments cursorID {R} c.
Arguments batch {R} c.
Arguments Current {R} c.
Arguments pending {R} c.
Arguments err {R} c.
Arguments closed {R} c.

(** The driver as the handlers use it.  [S] is the state of the store
    behind the collection handle and [R] its raw documents; every call
    takes the context it is issued under and threads the store. *)
Class Collection (S R : Type) : Type := {
  insertOne : Context -> blogItem -> S -> result InsertOneResult * S;
  findOne : Context -> primitive.ObjectID -> S -> result R * S;
  replaceOne : Context -> primitive.ObjectID -> blogItem -> S -> result UpdateResult * S;
  deleteOne : Context -> primitive.ObjectID -> S -> result DeleteResult * S;
  find : Context -> S -> result (Cursor R) * S;
  unmarshal : R -> result blogItem
}.

End mongo.

(** The server side of the [ListBlog] stream: [T] is the state of the
    transport, [send] what one [Send] does to it and whether it fails. *)
Class ListBlogServer (T : Type) : Type := {
  send : blogpb.ListBlogResponse -> T -> option Err * T;
  streamContext : T -> Context
}.

(** ** Calls that leave the process *)

(** Every call on the store, the cursor and the stream is recorded in order,
    with the context it was issued under. *)
Inductive Event : Type :=
| EInsertOne (ctx : Context) (doc : blogItem)
| EFindOne (ctx : Context) (filter : primitive.ObjectID)
| EReplaceOne (ctx : Context) (filter : primitive.ObjectID) (doc : blogItem)
| EDeleteOne (ctx : Context) (filter : primitive.ObjectID)
| EFind (ctx : Context)
| ENext (ctx : Context)
| EClose (ctx : Context) (cursor : Z)
| ESend (msg : blogpb.ListBlogResponse).

(** The context of a call on the store or on a cursor. *)
Definition event_ctx (e : Event) : option Context :=
  match e with
  | EInsertOne ctx _ | EFindOne ctx _ | EReplaceOne ctx _ _ | EDeleteOne ctx _
  | EFind ctx | ENext ctx | EClose ctx _ => Some ctx
  | ESend _ => None
  end.

Definition under_background (e : Event) : Prop :=
  match event_ctx e with
  | Some ctx => ctx = Background
  | None => True
  end.

(** The messages handed to [Send], in order. *)
Fixpoint sends (tr : list Event) : list blogpb.Blog :=
  match tr with
  | [] => []
  | ESend msg :: rest => blogpb.listed_Blog msg :: sends rest
  | _ :: rest => sends rest
  end.

(** How many times a cursor was released along a trace. *)
Fixpoint closes (tr : list Event) : nat :=
  match tr with
  | [] => 0
  | EClose _ _ :: rest => S (closes rest)
  | _ :: rest => closes rest
  end.

(** The calls that change stored records. *)
Definition is_mutation (e : Event) : bool :=
  match e with
  | EInsertOne _ _ | EReplaceOne _ _ _ | EDeleteOne _ _ => true
  | _ => false
  end.

(** How many times [Next] was called along a trace. *)
Fixpoint nexts (tr : list Event) : nat :=
  match tr with
  | [] => 0
  | ENext _ :: rest => S (nexts rest)
  | _ :: rest => nexts rest
  end.

(** ** The handlers *)

(** What lies outside a handler: the store behind the package-level
    [collection] handle, the calls made so far, and the ids of the cursors
    that were handed out by the store and not released yet. *)
Record World (S : Type) : Type := {
  collection : S;
  trace : list Event;
  cursors : list Z
}.
Arguments collection {S} w.
Arguments trace {S} w.
Arguments cursors {S} w.

(** A list of cursor ids without the first occurrence of [id]. *)
Fixpoint remove_one (id : Z) (ids : list Z) : list Z :=
  match ids with
  | [] => []
  | i :: rest => if (i =? id)%Z then rest else i :: remove_one id rest
  end.

(** Handlers run in a state monad over the world. *)
Definition M (S A : Type) : Type := World S -> A * World S.

Definition ret {S A : Type} (a : A) : M S A := fun w => (a, w).

Definition bind {S A B : Type} (m : M S A) (k : A -> M S B) : M S B :=
  fun w => let (a, w') := m w in k a w'.

Notation "x <- m ;; k" := (bind m (fun x => k))
  (at level 61, m at next level, right associativity).
Notation "' pat <- m ;; k" := (bind m (fun x => match x with pat => k end))
  (at level 61, pat pattern, m at next level, right associativity).

Section Service.

Context {S R T : Type} {coll : mongo.Collection S R} {srv : ListBlogServer T}.

(** The world after one more call, which left the store as [s]. *)
Definition after (w : World S) (e : Event) (s : S) : World S :=
  {| collection := s; trace := trace w ++ [e]; cursors := cursors w |}.

(** One call on the collection: recorded, then answered by the driver. *)
Definition call {A : Type} (e : Event) (op : S -> A * S) : M S A :=
  fun w => let (a, s') := op (collection w) in (a, after w e s').

(** A call that does not touch the collection. *)
Definition record (e : Event) : M S unit :=
  fun w => (tt, after w e (collection w)).

(** A cursor comes into the hands of the process, and leaves them. *)
Definition acquire (id : Z) : M S unit :=
  fun w => (tt, {| collection := collection w; trace := trace w;
                   cursors := id :: cursors w |}).

Definition release (id : Z) : M S unit :=
  fun w => (tt, {| collection := collection w; trace := trace w;
                   cursors := remove_one id (cursors w) |}).

Definition InsertOne (ctx : Context) (doc : blogItem) : M S (result mongo.InsertOneResult) :=
  call (EInsertOne ctx doc) (mongo.insertOne ctx doc).

Definition FindOne (ctx : Context) (filter : primitive.ObjectID) : M S (result R) :=
  call (EFindOne ctx filter) (mongo.findOne ctx filter).

Definition ReplaceOne (ctx : Context) (filter : primitive.ObjectID) (doc : blogItem)
  : M S (result mongo.UpdateResult) :=
  call (EReplaceOne ctx filter doc) (mongo.replaceOne ctx filter doc).

Definition DeleteOne (ctx : Context) (filter : primitive.ObjectID)
  : M S (result mongo.DeleteResult) :=
  call (EDeleteOne ctx filter) (mongo.deleteOne ctx filter).

(** The filter of the one scan, [primitive.D{{}}], is fixed and left out.
    A [Find] that succeeds leaves the process with an open cursor. *)
Definition Find (ctx : Context) : M S (result (mongo.Cursor R)) :=
  r <- call (EFind ctx) (mongo.find ctx) ;;
  match r with
  | Ok cur => _ <- acquire (mongo.cursorID cur) ;; ret r
  | Fail _ => ret r
  end.

(** [SingleResult.Decode]: the error of the lookup if there is one (no
    document, or a failure of the store), else the outcome of decoding the
    document found. *)
Definition SingleResult_Decode (res : result R) : result blogItem :=
  match res with
  | Fail e => Fail e
  | Ok raw => mongo.unmarshal raw
  end.

(** [Cursor.Next]: false under a context that is done, or when the batch
    is drained (the failure that ended the scan, if any, then fills the
    error slot); else the next document becomes the current one. *)
Definition cursor_next (ctx : Context) (cur : mongo.Cursor R) : bool * mongo.Cursor R :=
  match ctx_Err ctx with
  | Some e =>
      (false, {| mongo.cursorID := mongo.cursorID cur;
                 mongo.batch := mongo.batch cur; mongo.Current := mongo.Current cur;
                 mongo.pending := mongo.pending cur; mongo.err := Some e;
                 mongo.closed := mongo.closed cur |})
  | None =>
      match mongo.batch cur with
      | [] =>
          (false, {| mongo.cursorID := mongo.cursorID cur;
                     mongo.batch := []; mongo.Current := mongo.Current cur;
                     mongo.pending := mongo.pending cur; mongo.err := mongo.pending cur;
                     mongo.closed := mongo.closed cur |})
      | doc :: rest =>
          (true, {| mongo.cursorID := mongo.cursorID cur;
                    mongo.batch := rest; mongo.Current := Some doc;
                    mongo.pending := mongo.pending cur; mongo.err := mongo.err cur;
                    mongo.closed := mongo.closed cur |})
      end
  end.

Definition Next (ctx : Context) (cur : mongo.Cursor R) : M S (bool * mongo.Cursor R) :=
  _ <- record (ENext ctx) ;; ret (cursor_next ctx cur).

(** [Cursor.Decode]: decodes the current document. *)
Definition Cursor_Decode (cur : mongo.Cursor R) : result blogItem :=
  match mongo.Current cur with
  | Some raw => mongo.unmarshal raw
  | None => Fail "no current document"
  end.

(** [Cursor.Err] *)
Definition Cursor_Err (cur : mongo.Cursor R) : option Err := mongo.err cur.

(** [Cursor.Close]: the call goes out for the cursor it is applied to,
    that cursor is released, and the cursor object is marked closed. *)
Definition Close (ctx : Context) (cur : mongo.Cursor R) : M S (mongo.Cursor R) :=
  _ <- record (EClose ctx (mongo.cursorID cur)) ;;
  _ <- release (mongo.cursorID cur) ;;
  ret {| mongo.cursorID := mongo.cursorID cur;
         mongo.batch := []; mongo.Current := None;
         mongo.pending := mongo.pending cur; mongo.err := mongo.err cur;
         mongo.closed := true |}.

(** [stream.Send] *)
Definition Send (msg : blogpb.ListBlogResponse) (stream : T) : M S (option Err * T) :=
  _ <- record (ESend msg) ;; ret (send msg stream).

Definition CreateBlog (ctx : Context) (req : blogpb.CreateBlogRequest)
  : M S (reply blogpb.CreateBlogResponse) :=
  let blog := blogpb.create_Blog req in
  let insertData := {| ID := primitive.NilObjectID;
                       AuthorID := blogpb.GetAuthorId blog;
                       Title := blogpb.GetTitle blog;
                       Content := blogpb.GetContent blog |} in
  r <- InsertOne Background insertData ;;
  match r with
  | Fail insertErr =>
      ret (Failure (status.Errorf codes.Internal "Interal error: " (Some insertErr)))
  | Ok resp =>
      match mongo.asObjectID (mongo.InsertedID resp) with
      | None =>
          ret (Failure (status.Errorf codes.Internal "Can not convert to ObjectID: " None))
      | Some blogID =>
          ret (Response
                 {| blogpb.created_Blog :=
                     {| blogpb.Id := primitive.Hex blogID;
                        blogpb.AuthorId := blogpb.GetAuthorId blog;
                        blogpb.Title := blogpb.GetTitle blog;
                        blogpb.Content := blogpb.GetContent blog |} |})
      end
  end.

Definition ReadBlog (ctx : Context) (req : blogpb.ReadBlogRequest)
  : M S (reply blogpb.ReadBlogResponse) :=
  let blogID := blogpb.read_BlogId req in
  match primitive.ObjectIDFromHex blogID with
  | Fail err =>
      ret (Failure (status.Errorf codes.InvalidArgument "Invalid blog ID :" (Some err)))
  | Ok oID =>
      res <- FindOne Background oID ;;
      match SingleResult_Decode res with
      | Fail err =>
          ret (Failure (status.Errorf codes.NotFound "Blog not found: " (Some err)))
      | Ok data =>
          ret (Response {| blogpb.found_Blog := blogItemToBlogpb data |})
      end
  end.

Definition UpdateBlog (ctx : Context) (req : blogpb.UpdateBlogRequest)
  : M S (reply blogpb.UpdateBlogResponse) :=
  let blog := blogpb.update_Blog req in
  match primitive.ObjectIDFromHex (blogpb.GetId blog) with
  | Fail err =>
      ret (Failure (status.Errorf codes.InvalidArgument "Can not parse blog ID: " (Some err)))
  | Ok blogID =>
      let data := {| ID := primitive.NilObjectID;
                     AuthorID := blogpb.GetAuthorId blog;
                     Title := blogpb.GetTitle blog;
                     Content := blogpb.GetContent blog |} in
      r <- ReplaceOne Background blogID data ;;
      match r with
      | Fail updateErr =>
          ret (Failure (status.Errorf codes.NotFound "Can not update blog : " (Some updateErr)))
      | Ok _ =>
          let data := {| ID := blogID; AuthorID := AuthorID data;
                         Content := Content data; Title := Title data |} in
          ret (Response {| blogpb.updated_Blog := blogItemToBlogpb data |})
      end
  end.

Definition DeleteBlog (ctx : Context) (req : blogpb.DeleteBlogRequest)
  : M S (reply blogpb.DeleteBlogResponse) :=
  match primitive.ObjectIDFromHex (blogpb.delete_BlogId req) with
  | Fail parseErr =>
      ret (Failure (status.Errorf codes.InvalidArgument "Can not parse blog ID: " (Some parseErr)))
  | Ok oID =>
      r <- DeleteOne Background oID ;;
      match r with
      | Fail deleteErr =>
          ret (Failure (status.Errorf codes.Internal "Can not delete blog : " (Some deleteErr)))
      | Ok res =>
          if (mongo.DeletedCount res =? 0)%Z
          then ret (Failure (status.Errorf codes.NotFound "Not found blog with provided ID" None))
          else ret (Response {| blogpb.deleted_BlogId := blogpb.delete_BlogId req |})
      end
  end.

(** A value together with the equation that names it. *)
Definition inspect {A : Type} (a : A) : {b : A | a = b} := exist _ a eq_refl.

(** The [for cur.Next(...)] loop of [ListBlog].  It ends with [Some st]
    when the body returns [st] from the handler, and with [None] when
    [Next] answers false.  [Next] appears as its two halves, the recorded
    call and [cursor_next], so that the recursion can see that the batch
    shrinks ([listLoop_Next] below puts them back together). *)
Equations? listLoop (cur : mongo.Cursor R) (stream : T) (w : World S)
  : (option status.Status * mongo.Cursor R * T) * World S
  by wf (List.length (mongo.batch cur)) lt :=
listLoop cur stream w with inspect (cursor_next Background cur) := {
  | exist _ (true, cur1) more =>
      (_ <- record (ENext Background) ;;
       match Cursor_Decode cur1 with
       | Fail err =>
           ret (Some (status.Errorf codes.Internal "unable to decode data : " (Some err)),
                cur1, stream)
       | Ok data =>
           ' (_, stream1) <- Send {| blogpb.listed_Blog := blogItemToBlogpb data |} stream ;;
           (fun w' => listLoop cur1 stream1 w')
       end) w
  | exist _ (false, cur1) _ =>
      (_ <- record (ENext Background) ;;
       ret (None, cur1, stream)) w }.
Proof.
  unfold cursor_next in more. simpl in more.
  destruct (mongo.batch cur); [discriminate |].
  injection more as <-. simpl. lia.
Qed.

(** [ListBlog] between the deferred [Close] and the return. *)
Definition listBody (cur : mongo.Cursor R) (stream : T)
  : M S (option status.Status * mongo.Cursor R * T) :=
  ' (returned, cur, stream) <- listLoop cur stream ;;
  match returned with
  | Some st => ret (Some st, cur, stream)
  | None =>
      match Cursor_Err cur with
      | Some err =>
          ret (Some (status.Errorf codes.Internal "internal error from cursor: " (Some err)),
               cur, stream)
      | None => ret (None, cur, stream)
      end
  end.

(** [defer cur.Close(...)]: the body runs to its return, then the cursor is
    closed, then the handler returns what the body returned. *)
Definition ListBlog (req : blogpb.ListBlogRequest) (stream : T)
  : M S (option status.Status * T) :=
  r <- Find Background ;;
  match r with
  | Fail err =>
      ret (Some (status.Errorf codes.Internal "internal error when find collection: " (Some err)),
           stream)
  | Ok cur =>
      ' (returned, cur, stream) <- listBody cur stream ;;
      _ <- Close Background cur ;;
      ret (returned, stream)
  end.

(** *** What a run adds to the trace *)

(** The calls a run from [w] to [w'] added to the trace all went out under
    [context.Background]. *)
Definition background_only (w w' : World S) : Prop :=
  exists evs, trace w' = trace w ++ evs /\ Forall under_background evs.

(** *** What the handlers hand to the store *)

(** [insertData] of [CreateBlog]. *)
Definition insertData_of (req : blogpb.CreateBlogRequest) : blogItem :=
  {| ID := primitive.NilObjectID;
     AuthorID := blogpb.GetAuthorId (blogpb.create_Blog req);
     Title := blogpb.GetTitle (blogpb.create_Blog req);
     Content := blogpb.GetContent (blogpb.create_Blog req) |}.

(** [data] of [UpdateBlog] as it goes into the replace call: no id yet. *)
Definition replacement_of (req : blogpb.UpdateBlogRequest) : blogItem :=
  {| ID := primitive.NilObjectID;
     AuthorID := blogpb.GetAuthorId (blogpb.update_Blog req);
     Title := blogpb.GetTitle (blogpb.update_Blog req);
     Content := blogpb.GetContent (blogpb.update_Blog req) |}.

(** *** What a scan will go through *)

(** The documents of a batch that decode, up to the first one that does
    not, and the error of that one. *)
Fixpoint decoded_prefix (docs : list R) : list blogItem * option Err :=
  match docs with
  | [] => ([], None)
  | raw :: rest =>
      match mongo.unmarshal raw with
      | Fail e => ([], Some e)
      | Ok item =>
          let (items, failure) := decoded_prefix rest in
          (item :: items, failure)
      end
  end.

(** The status with which a scan over the batch of [cur] ends: the decode
    error of the first document that does not decode, else the failure the
    cursor reports after its last document, else none. *)
Definition scan_status (cur : mongo.Cursor R) : option status.Status :=
  match snd (decoded_prefix (mongo.batch cur)) with
  | Some e => Some (status.Errorf codes.Internal "unable to decode data : " (Some e))
  | None =>
      match mongo.pending cur with
      | Some e => Some (status.Errorf codes.Internal "internal error from cursor: " (Some e))
      | None => None
      end
  end.

(** The calls of the loop that gets [items] out of the cursor: one [Next]
    and one [Send] for each of them, and the [Next] that ends the loop. *)
Definition loop_events (items : list blogItem) : list Event :=
  flat_map (fun item =>
              [ENext Background; ESend {| blogpb.listed_Blog := blogItemToBlogpb item |}])
           items
  ++ [ENext Background].

(** The stream after [items] went through [Send] one after the other,
    whatever each [Send] answered. *)
Definition send_all (items : list blogItem) (stream : T) : T :=
  fold_left (fun t item => snd (send {| blogpb.listed_Blog := blogItemToBlogpb item |} t))
            items stream.

End Service.

(** An identifier string is well formed when it parses. *)
Definition well_formed (s : string) : bool :=
  match primitive.ObjectIDFromHex s with
  | Ok _ => true
  | Fail _ => false
  end.

(** A character that [hex.fromHexChar] accepts. *)
Definition is_hex_digit (c : ascii) : bool :=
  match hex.fromHexChar c with
  | Some _ => true
  | None => false
  end.

(** A string made of such characters only. *)
Fixpoint hex_digits (s : string) : bool :=
  match s with
  | EmptyString => true
  | String c rest => is_hex_digit c && hex_digits rest
  end.

(** A character of ["0123456789abcdef"], the digits [ObjectID.Hex] writes. *)
Definition is_lower_hex_digit (c : ascii) : bool :=
  let n := N_of_ascii c in
  ((48 <=? n) && (n <=? 57))%N || ((97 <=? n) && (n <=? 102))%N.

(** A string made of such characters only: the canonical spelling. *)
Fixpoint lower_hex_digits (s : string) : bool :=
  match s with
  | EmptyString => true
  | String c rest => is_lower_hex_digit c && lower_hex_digits rest
  end.

(** ** An in-memory store *)

(** The store the handlers are run against in the examples: a list of raw
    documents behind the driver's calls.  Its answers follow the store
    contract of the driver: a lookup that matches nothing is an error of
    [FindOne], while a replace or a delete that matches nothing succeeds
    with a count of zero. *)
Module memstore.

(** A raw document: its [_id] and either the three text fields or bytes
    that do not decode. *)
Inductive Raw : Type :=
| Doc (_id : mongo.AnyID) (author_id content title : string)
| Garbled (_id : mongo.AnyID) (why : Err).

Definition raw_id (r : Raw) : mongo.AnyID :=
  match r with
  | Doc i _ _ _ => i
  | Garbled i _ => i
  end.

Record Store : Type := {
  docs : list Raw;
  (** identifiers a test double reports for the coming inserts; when empty
      the driver makes up a fresh [ObjectID] from [counter] *)
  scripted : list mongo.AnyID;
  counter : N;
  (** when set, every call fails with it *)
  outage : option Err;
  (** when set, a scan breaks off with it after the documents it returned *)
  scanFailure : option Err
}.

Definition ErrNoDocuments : Err := "mongo: no documents in result".

Fixpoint oid_eqb (a b : primitive.ObjectID) : bool :=
  match a, b with
  | [], [] => true
  | x :: a', y :: b' => (x =? y)%N && oid_eqb a' b'
  | _, _ => false
  end.

Definition has_id (oid : primitive.ObjectID) (r : Raw) : bool :=
  match raw_id r with
  | mongo.IdObjectID o => oid_eqb o oid
  | _ => false
  end.

(** A fresh identifier: the counter in the last three bytes. *)
Definition fresh (c : N) : primitive.ObjectID :=
  repeat 0%N 9 ++ [(c / 65536) mod 256; (c / 256) mod 256; c mod 256]%N.

(** Why a call cannot reach the store, if it cannot. *)
Definition unreachable (ctx : Context) (s : Store) : option Err :=
  match ctx_Err ctx with
  | Some e => Some e
  | None => outage s
  end.

Definition insertOne (ctx : Context) (doc : blogItem) (s : Store)
  : result mongo.InsertOneResult * Store :=
  match unreachable ctx s with
  | Some e => (Fail e, s)
  | None =>
      let id := match scripted s with
                | v :: _ => v
                | [] => mongo.IdObjectID (fresh (counter s))
                end in
      (Ok {| mongo.InsertedID := id |},
       {| docs := docs s ++ [Doc id (AuthorID doc) (Content doc) (Title doc)];
          scripted := tl (scripted s);
          counter := (counter s + 1)%N;
          outage := outage s;
          scanFailure := scanFailure s |})
  end.

Definition findOne (ctx : Context) (oid : primitive.ObjectID) (s : Store)
  : result Raw * Store :=
  match unreachable ctx s with
  | Some e => (Fail e, s)
  | None =>
      match List.find (has_id oid) (docs s) with
      | Some r => (Ok r, s)
      | None => (Fail ErrNoDocuments, s)
      end
  end.

(** Replaces the first document that matches, if any. *)
Fixpoint replace_first (oid : primitive.ObjectID) (new : Raw) (l : list Raw)
  : option (list Raw) :=
  match l with
  | [] => None
  | r :: rest =>
      if has_id oid r then Some (new :: rest)
      else match replace_first oid new rest with
           | Some rest' => Some (r :: rest')
           | None => None
           end
  end.

(** Removes the first document that matches, if any. *)
Fixpoint delete_first (oid : primitive.ObjectID) (l : list Raw) : option (list Raw) :=
  match l with
  | [] => None
  | r :: rest =>
      if has_id oid r then Some rest
      else match delete_first oid rest with
           | Some rest' => Some (r :: rest')
           | None => None
           end
  end.

Definition with_docs (s : Store) (l : list Raw) : Store :=
  {| docs := l; scripted := scripted s; counter := counter s;
     outage := outage s; scanFailure := scanFailure s |}.

Definition replaceOne (ctx : Context) (oid : primitive.ObjectID) (doc : blogItem) (s : Store)
  : result mongo.UpdateResult * Store :=
  match unreachable ctx s with
  | Some e => (Fail e, s)
  | None =>
      let new := Doc (mongo.IdObjectID oid) (AuthorID doc) (Content doc) (Title doc) in
      match replace_first oid new (docs s) with
      | Some l =>
          (Ok {| mongo.MatchedCount := 1; mongo.ModifiedCount := 1; mongo.UpsertedCount := 0 |},
           with_docs s l)
      | None =>
          (Ok {| mongo.MatchedCount := 0; mongo.ModifiedCount := 0; mongo.UpsertedCount := 0 |},
           s)
      end
  end.

Definition deleteOne (ctx : Context) (oid : primitive.ObjectID) (s : Store)
  : result mongo.DeleteResult * Store :=
  match unreachable ctx s with
  | Some e => (Fail e, s)
  | None =>
      match delete_first oid (docs s) with
      | Some l => (Ok {| mongo.DeletedCount := 1 |}, with_docs s l)
      | None => (Ok {| mongo.DeletedCount := 0 |}, s)
      end
  end.

(** A fresh cursor over every document, under an id of the server's
    choice (here made from the counter). *)
Definition scan (s : Store) : mongo.Cursor Raw :=
  {| mongo.cursorID := Z.of_N (counter s);
     mongo.batch := docs s; mongo.Current := None;
     mongo.pending := scanFailure s; mongo.err := None;
     mongo.closed := false |}.

Definition find (ctx : Context) (s : Store) : result (mongo.Cursor Raw) * Store :=
  match unreachable ctx s with
  | Some e => (Fail e, s)
  | None => (Ok (scan s), s)
  end.

(** Decoding an [_id] into an [ObjectID] field: an [ObjectID] as it is, a
    string when it is the hex form of an identifier or else has exactly
    twelve bytes, a null as the zero identifier. *)
Definition decode_id (v : mongo.AnyID) : result primitive.ObjectID :=
  match v with
  | mongo.IdObjectID o => Ok o
  | mongo.IdString s =>
      match primitive.ObjectIDFromHex s with
      | Ok o => Ok o
      | Fail _ =>
          if (String.length s =? 12)%nat
          then Ok (map N_of_ascii (list_ascii_of_string s))
          else Fail "an ObjectID string must be exactly 12 bytes long"
      end
  | mongo.IdNil => Ok primitive.NilObjectID
  | mongo.IdInt _ => Fail "cannot decode integer into an ObjectID"
  end.

(** Decoding into a [blogItem]. *)
Definition unmarshal (r : Raw) : result blogItem :=
  match r with
  | Doc i a c t =>
      match decode_id i with
      | Ok o => Ok {| ID := o; AuthorID := a; Content := c; Title := t |}
      | Fail e => Fail e
      end
  | Garbled _ why => Fail why
  end.

#[global] Instance collection : mongo.Collection Store Raw := {|
  mongo.insertOne := insertOne;
  mongo.findOne := findOne;
  mongo.replaceOne := replaceOne;
  mongo.deleteOne := deleteOne;
  mongo.find := find;
  mongo.unmarshal := unmarshal
|}.

(** An empty, healthy store. *)
Definition empty : Store :=
  {| docs := []; scripted := []; counter := 1; outage := None; scanFailure := None |}.

End memstore.

(** ** A stream that remembers what it delivered *)
Module wire.

(** The transport of one [ListBlog] call: the call's context, the messages
    that reached the client, and the failure of the connection if it broke. *)
Record Stream : Type := {
  context : Context;
  delivered : list blogpb.ListBlogResponse;
  broken : option Err
}.

Definition failure (t : Stream) : option Err :=
  match ctx_Err (context t) with
  | Some e => Some e
  | None => broken t
  end.

Definition Send (msg : blogpb.ListBlogResponse) (t : Stream) : option Err * Stream :=
  match failure t with
  | Some e => (Some e, t)
  | None =>
      (None, {| context := context t; delivered := delivered t ++ [msg]; broken := broken t |})
  end.

#[global] Instance server : ListBlogServer Stream := {|
  send := Send;
  streamContext := context
|}.

(** A healthy stream of a live call, and one whose client is gone. *)
Definition open : Stream :=
  {| context := Incoming None; delivered := []; broken := None |}.
Definition gone : Stream :=
  {| context := Incoming (Some "context canceled"); delivered := []; broken := None |}.

End wire.

(** The world at start-up: a store, no call made yet, no cursor open. *)
Definition boot {S : Type} (s : S) : World S :=
  {| collection := s; trace := []; cursors := [] |}.


(** ** Sample data *)
Module sample.

Definition oidA : primitive.ObjectID := [95; 26; 0; 255; 95; 26; 0; 255; 95; 26; 0; 255]%N.
Definition oidB : primitive.ObjectID := memstore.fresh 7.
Definition oidC : primitive.ObjectID := memstore.fresh 8.

Definition hexA : string := "5f1a00ff5f1a00ff5f1a00ff".
Definition hexA_upper : string := "5F1A00FF5F1A00FF5F1A00FF".
Definition hexB : string := "000000000000000000000007".
Definition hexC : string := "000000000000000000000008".
(** well formed, and the identifier of no record of the stores below *)
Definition hexAbsent : string := "0123456789abcdef01234567".

Definition docA : memstore.Raw := memstore.Doc (mongo.IdObjectID oidA) "u1" "world" "hello".
Definition docB : memstore.Raw := memstore.Garbled (mongo.IdObjectID oidB) "bad bytes".
Definition docC : memstore.Raw := memstore.Doc (mongo.IdObjectID oidC) "u2" "c" "t".

(** Two sound records. *)
Definition sound : memstore.Store :=
  {| memstore.docs := [docA; docC]; memstore.scripted := []; memstore.counter := 9;
     memstore.outage := None; memstore.scanFailure := None |}.

(** The same with a record in between that does not decode. *)
Definition damaged : memstore.Store :=
  {| memstore.docs := [docA; docB; docC]; memstore.scripted := []; memstore.counter := 9;
     memstore.outage := None; memstore.scanFailure := None |}.

(** A store that cannot be reached. *)
Definition down : memstore.Store :=
  {| memstore.docs := [docA; docC]; memstore.scripted := []; memstore.counter := 9;
     memstore.outage := Some "connection refused"; memstore.scanFailure := None |}.

(** A store whose scans break off after the records they returned. *)
Definition flaky : memstore.Store :=
  {| memstore.docs := [docA; docC]; memstore.scripted := []; memstore.counter := 9;
     memstore.outage := None; memstore.scanFailure := Some "connection reset" |}.

(** A double that acknowledges the next insert with a string identifier. *)
Definition misbehaving : memstore.Store :=
  {| memstore.docs := []; memstore.scripted := [mongo.IdString "not-an-oid"];
     memstore.counter := 1; memstore.outage := None; memstore.scanFailure := None |}.

(** The records of [docA] and [docC] once decoded. *)
Definition itemA : blogItem :=
  {| ID := oidA; AuthorID := "u1"; Content := "world"; Title := "hello" |}.
Definition itemC : blogItem :=
  {| ID := oidC; AuthorID := "u2"; Content := "c"; Title := "t" |}.

Definition post : blogpb.Blog :=
  {| blogpb.Id := ""; blogpb.AuthorId := "u1"; blogpb.Title := "hello";
     blogpb.Content := "world" |}.

Definition edit (id : string) : blogpb.Blog :=
  {| blogpb.Id := id; blogpb.AuthorId := "u9"; blogpb.Title := "new title";
     blogpb.Content := "new content" |}.

(** A string that is no identifier. *)
Definition garbage : string := "not an id".

(** The context of a live call. *)
Definition ctx : Context := Incoming None.

Definition create : blogpb.CreateBlogRequest := {| blogpb.create_Blog := Some post |}.
Definition read (id : string) : blogpb.ReadBlogRequest := {| blogpb.read_BlogId := id |}.
Definition update (id : string) : blogpb.UpdateBlogRequest :=
  {| blogpb.update_Blog := Some (edit id) |}.
Definition delete (id : string) : blogpb.DeleteBlogRequest := {| blogpb.delete_BlogId := id |}.
Definition listAll : blogpb.ListBlogRequest := blogpb.Build_ListBlogRequest.

End sample.

(** Further requests and stores for the examples. *)
Module more.

(** A request that carries no blog message. *)
Definition createNothing : blogpb.CreateBlogRequest := {| blogpb.create_Blog := None |}.
Definition updateNothing : blogpb.UpdateBlogRequest := {| blogpb.update_Blog := None |}.

(** A create request whose blog comes with an id of its own. *)
Definition createWithId : blogpb.CreateBlogRequest :=
  {| blogpb.create_Blog :=
      Some {| blogpb.Id := sample.hexA; blogpb.AuthorId := "u1"; blogpb.Title := "hello";
              blogpb.Content := "world" |} |}.

(** A store with no record at all. *)
Definition vacant : memstore.Store :=
  {| memstore.docs := []; memstore.scripted := []; memstore.counter := 1;
     memstore.outage := None; memstore.scanFailure := None |}.

(** 24 characters, one of which is no hex digit. *)
Definition almostHex : string := "5f1a00ff5f1a00ff5f1a00fg".

End more.

(** * Properties *)

(** ** Identifiers *)

Example ObjectIDFromHex_short :
  primitive.ObjectIDFromHex "abc" = Fail primitive.ErrInvalidHex.
Proof. reflexivity. Qed.

Example ObjectIDFromHex_upper :
  primitive.ObjectIDFromHex sample.hexA_upper = Ok sample.oidA.
Proof. reflexivity. Qed.

Example Hex_lower : primitive.Hex sample.oidA = sample.hexA.
Proof. reflexivity. Qed.

Example ObjectIDFromHex_bad_digit :
  primitive.ObjectIDFromHex "zz1a00ff5f1a00ff5f1a00ff" = Fail hex.ErrInvalidByte.
Proof. reflexivity. Qed.

Lemma fromHexChar_hextable (d : N) :
  (d < 16)%N -> hex.fromHexChar (hex.hextable d) = Some d.
Proof.
  intros H.
  assert (Hd : In d [0; 1; 2; 3; 4; 5; 6; 7; 8; 9; 10; 11; 12; 13; 14; 15]%N).
  { simpl. lia. }
  simpl in Hd.
  repeat (destruct Hd as [<- | Hd]; [reflexivity |]).
  contradiction.
Qed.

Lemma fromHexChar_bound (c : ascii) (d : N) :
  hex.fromHexChar c = Some d -> (d < 16)%N.
Proof.
  unfold hex.fromHexChar. generalize (N_of_ascii c) as n. intros n.
  repeat match goal with
         | |- context [(?a <=? ?b)%N] => destruct (N.leb_spec a b)
         end; cbn [andb]; intros [= <-]; lia.
Qed.

Lemma EncodeToString_length (bs : list N) :
  String.length (hex.EncodeToString bs) = 2 * List.length bs.
Proof.
  induction bs as [| b bs IH]; [reflexivity |].
  cbn [hex.EncodeToString String.length List.length]. rewrite IH. lia.
Qed.

Lemma DecodeString_EncodeToString (bs : list N) :
  Forall (fun b => (b < 256)%N) bs ->
  hex.DecodeString (hex.EncodeToString bs) = Ok bs.
Proof.
  induction 1 as [| b bs Hb _ IH]; [reflexivity |].
  cbn [hex.EncodeToString hex.DecodeString].
  rewrite !fromHexChar_hextable, IH.
  - f_equal. f_equal. symmetry. apply N.div_mod'.
  - apply N.mod_lt. lia.
  - apply N.Div0.div_lt_upper_bound. lia.
Qed.

(** Decoding gives one byte for every two characters. *)
Lemma DecodeString_bytes (n : nat) :
  forall (s : string) (bs : list N),
    String.length s <= n ->
    hex.DecodeString s = Ok bs ->
    String.length s = 2 * List.length bs /\ Forall (fun b => (b < 256)%N) bs.
Proof.
  induction n as [| n IH]; intros s bs Hn.
  - destruct s; [| simpl in Hn; lia]. intros [= <-]. split; [reflexivity | constructor].
  - destruct s as [| hi [| lo rest]]; cbn [hex.DecodeString].
    + intros [= <-]. split; [reflexivity | constructor].
    + discriminate.
    + destruct (hex.fromHexChar hi) as [h |] eqn:Hh; [| discriminate].
      destruct (hex.fromHexChar lo) as [l |] eqn:Hl; [| discriminate].
      destruct (hex.DecodeString rest) as [bs' |] eqn:Hrest; [| discriminate].
      intros [= <-].
      destruct (IH rest bs') as [Hlen Hall]; [simpl in Hn; lia | exact Hrest |].
      split.
      * simpl. rewrite Hlen. lia.
      * constructor; [| exact Hall].
        apply fromHexChar_bound in Hh. apply fromHexChar_bound in Hl.
        cbv beta. destruct h as [| q]; lia.
Qed.

(** Parsing yields identifiers of twelve bytes. *)
Lemma ObjectIDFromHex_wf (s : string) (oid : primitive.ObjectID) :
  primitive.ObjectIDFromHex s = Ok oid -> primitive.wf_oid oid.
Proof.
  unfold primitive.ObjectIDFromHex.
  destruct (String.length s =? 24)%nat eqn:E; simpl; [| discriminate].
  apply Nat.eqb_eq in E.
  destruct (hex.DecodeString s) as [bs |] eqn:Hd; [| discriminate].
  intros [= <-].
  destruct (DecodeString_bytes (String.length s) s bs (le_n _) Hd) as [Hlen Hall].
  split; [lia | exact Hall].
Qed.

(** The hex form of an identifier parses back to it: it is a well-formed
    identifier string of 24 characters. *)
Lemma ObjectIDFromHex_Hex (oid : primitive.ObjectID) :
  primitive.wf_oid oid ->
  primitive.ObjectIDFromHex (primitive.Hex oid) = Ok oid.
Proof.
  intros [Hlen Hall]. unfold primitive.ObjectIDFromHex, primitive.Hex.
  rewrite EncodeToString_length, Hlen. simpl.
  now rewrite DecodeString_EncodeToString.
Qed.

Lemma well_formed_true (s : string) :
  well_formed s = true <-> exists oid, primitive.ObjectIDFromHex s = Ok oid.
Proof.
  unfold well_formed. destruct (primitive.ObjectIDFromHex s) as [oid | e].
  - split; [eauto | reflexivity].
  - split; [discriminate | intros [oid H]; discriminate].
Qed.

Lemma well_formed_false (s : string) :
  well_formed s = false <-> exists e, primitive.ObjectIDFromHex s = Fail e.
Proof.
  unfold well_formed. destruct (primitive.ObjectIDFromHex s) as [oid | e].
  - split; [discriminate | intros [e H]; discriminate].
  - split; [eauto | reflexivity].
Qed.

(** A string of another length than 24 is never well formed. *)
Lemma well_formed_length (s : string) :
  well_formed s = true -> String.length s = 24%nat.
Proof.
  unfold well_formed, primitive.ObjectIDFromHex.
  destruct (String.length s =? 24)%nat eqn:E; simpl.
  - intros _. now apply Nat.eqb_eq.
  - discriminate.
Qed.

Section Handlers.

Context {S R T : Type} {coll : mongo.Collection S R} {srv : ListBlogServer T}.

Implicit Types (w : World S) (ctx : Context).

(** *** Malformed identifiers *)

Lemma ReadBlog_malformed ctx req w :
  well_formed (blogpb.read_BlogId req) = false ->
  code_of (fst (ReadBlog ctx req w)) = codes.InvalidArgument /\ snd (ReadBlog ctx req w) = w.
Proof.
  intros H. apply well_formed_false in H as [e H].
  unfold ReadBlog. rewrite H. split; reflexivity.
Qed.

Lemma UpdateBlog_malformed ctx req w :
  well_formed (blogpb.GetId (blogpb.update_Blog req)) = false ->
  code_of (fst (UpdateBlog ctx req w)) = codes.InvalidArgument /\ snd (UpdateBlog ctx req w) = w.
Proof.
  intros H. apply well_formed_false in H as [e H].
  unfold UpdateBlog. rewrite H. split; reflexivity.
Qed.

Lemma DeleteBlog_malformed ctx req w :
  well_formed (blogpb.delete_BlogId req) = false ->
  code_of (fst (DeleteBlog ctx req w)) = codes.InvalidArgument /\ snd (DeleteBlog ctx req w) = w.
Proof.
  intros H. apply well_formed_false in H as [e H].
  unfold DeleteBlog. rewrite H. split; reflexivity.
Qed.

(** C3. For every string that is not a well-formed identifier, [ReadBlog],
    [UpdateBlog] and [DeleteBlog] called with it as the id fail with
    [InvalidArgument] and leave the world as it was: the store is the same
    and no call, read or mutation, was added to the trace. *)
Theorem malformed_id_rejected_before_store (s : string) ctx w :
  well_formed s = false ->
  (forall req, blogpb.read_BlogId req = s ->
     code_of (fst (ReadBlog ctx req w)) = codes.InvalidArgument
     /\ snd (ReadBlog ctx req w) = w)
  /\ (forall req, blogpb.GetId (blogpb.update_Blog req) = s ->
     code_of (fst (UpdateBlog ctx req w)) = codes.InvalidArgument
     /\ snd (UpdateBlog ctx req w) = w)
  /\ (forall req, blogpb.delete_BlogId req = s ->
     code_of (fst (DeleteBlog ctx req w)) = codes.InvalidArgument
     /\ snd (DeleteBlog ctx req w) = w).
Proof.
  intros H. split; [| split]; intros req E; rewrite <- E in H.
  - now apply ReadBlog_malformed.
  - now apply UpdateBlog_malformed.
  - now apply DeleteBlog_malformed.
Qed.

(** *** Create *)

Lemma CreateBlog_store_failure ctx req w e s' :
  mongo.insertOne Background (insertData_of req) (collection w) = (Fail e, s') ->
  CreateBlog ctx req w
  = (Failure (status.Errorf codes.Internal "Interal error: " (Some e)),
     after w (EInsertOne Background (insertData_of req)) s').
Proof.
  intros H. unfold CreateBlog, bind, InsertOne, call.
  fold (insertData_of req). rewrite H. reflexivity.
Qed.

(** C4. When the insert succeeds and the store reports an [ObjectID], the
    response carries the hex form of that identifier and the author, title
    and content of the request; the insert is the only call made, so
    nothing is read back. *)
Theorem CreateBlog_echoes_request ctx req w resp s' oid :
  mongo.insertOne Background (insertData_of req) (collection w) = (Ok resp, s') ->
  mongo.InsertedID resp = mongo.IdObjectID oid ->
  CreateBlog ctx req w
  = (Response {| blogpb.created_Blog :=
                  {| blogpb.Id := primitive.Hex oid;
                     blogpb.AuthorId := blogpb.GetAuthorId (blogpb.create_Blog req);
                     blogpb.Title := blogpb.GetTitle (blogpb.create_Blog req);
                     blogpb.Content := blogpb.GetContent (blogpb.create_Blog req) |} |},
     after w (EInsertOne Background (insertData_of req)) s').
Proof.
  intros H Hid. unfold CreateBlog, bind, InsertOne, call.
  fold (insertData_of req). rewrite H, Hid. reflexivity.
Qed.

(** C5. When the insert succeeds but the reported identifier is not an
    [ObjectID], [CreateBlog] fails with [Internal]; no response is built. *)
Theorem CreateBlog_unusable_id_is_Internal ctx req w resp s' :
  mongo.insertOne Background (insertData_of req) (collection w) = (Ok resp, s') ->
  mongo.asObjectID (mongo.InsertedID resp) = None ->
  fst (CreateBlog ctx req w)
  = Failure (status.Errorf codes.Internal "Can not convert to ObjectID: " None)
  /\ code_of (fst (CreateBlog ctx req w)) = codes.Internal.
Proof.
  intros H Hid. unfold CreateBlog, bind, InsertOne, call.
  fold (insertData_of req). rewrite H, Hid. split; reflexivity.
Qed.

(** *** Update *)

(** A replace call that fails is reported as [NotFound], whatever failed. *)
Lemma UpdateBlog_store_failure ctx req w oid e s' :
  primitive.ObjectIDFromHex (blogpb.GetId (blogpb.update_Blog req)) = Ok oid ->
  mongo.replaceOne Background oid (replacement_of req) (collection w) = (Fail e, s') ->
  UpdateBlog ctx req w
  = (Failure (status.Errorf codes.NotFound "Can not update blog : " (Some e)),
     after w (EReplaceOne Background oid (replacement_of req)) s').
Proof.
  intros Hid H. unfold UpdateBlog, bind, ReplaceOne, call.
  rewrite Hid. fold (replacement_of req). rewrite H. reflexivity.
Qed.

(** A replace call that does not fail makes [UpdateBlog] succeed, whatever
    counts the store reports. *)
Lemma UpdateBlog_store_success ctx req w oid res s' :
  primitive.ObjectIDFromHex (blogpb.GetId (blogpb.update_Blog req)) = Ok oid ->
  mongo.replaceOne Background oid (replacement_of req) (collection w) = (Ok res, s') ->
  UpdateBlog ctx req w
  = (Response {| blogpb.updated_Blog :=
                  {| blogpb.Id := primitive.Hex oid;
                     blogpb.AuthorId := blogpb.GetAuthorId (blogpb.update_Blog req);
                     blogpb.Title := blogpb.GetTitle (blogpb.update_Blog req);
                     blogpb.Content := blogpb.GetContent (blogpb.update_Blog req) |} |},
     after w (EReplaceOne Background oid (replacement_of req)) s').
Proof.
  intros Hid H. unfold UpdateBlog, bind, ReplaceOne, call.
  rewrite Hid. fold (replacement_of req). rewrite H. reflexivity.
Qed.

(** C7. When the id parses and the replace call succeeds, the response is
    made of the author, title and content of the request and the hex form
    of the parsed id; the replace is the only call made, so the record is
    not fetched again. *)
Theorem UpdateBlog_reflects_request ctx req w oid res s' :
  primitive.ObjectIDFromHex (blogpb.GetId (blogpb.update_Blog req)) = Ok oid ->
  mongo.replaceOne Background oid (replacement_of req) (collection w) = (Ok res, s') ->
  fst (UpdateBlog ctx req w)
  = Response {| blogpb.updated_Blog :=
                 {| blogpb.Id := primitive.Hex oid;
                    blogpb.AuthorId := blogpb.GetAuthorId (blogpb.update_Blog req);
                    blogpb.Title := blogpb.GetTitle (blogpb.update_Blog req);
                    blogpb.Content := blogpb.GetContent (blogpb.update_Blog req) |} |}
  /\ trace (snd (UpdateBlog ctx req w))
     = trace w ++ [EReplaceOne Background oid (replacement_of req)]
  /\ collection (snd (UpdateBlog ctx req w)) = s'.
Proof.
  intros Hid H. rewrite (UpdateBlog_store_success ctx req w oid res s' Hid H).
  repeat split.
Qed.

(** *** Delete *)

(** C6. With a well-formed id: a delete call that fails gives [Internal]; a
    delete that reports a count of zero gives [NotFound]; any other count
    gives a response whose id is the very string of the request. *)
Theorem DeleteBlog_outcomes ctx req w oid :
  primitive.ObjectIDFromHex (blogpb.delete_BlogId req) = Ok oid ->
  (forall e s',
     mongo.deleteOne Background oid (collection w) = (Fail e, s') ->
     code_of (fst (DeleteBlog ctx req w)) = codes.Internal)
  /\ (forall res s',
     mongo.deleteOne Background oid (collection w) = (Ok res, s') ->
     mongo.DeletedCount res = 0%Z ->
     code_of (fst (DeleteBlog ctx req w)) = codes.NotFound)
  /\ (forall res s',
     mongo.deleteOne Background oid (collection w) = (Ok res, s') ->
     mongo.DeletedCount res <> 0%Z ->
     fst (DeleteBlog ctx req w)
     = Response {| blogpb.deleted_BlogId := blogpb.delete_BlogId req |}).
Proof.
  intros Hid. unfold DeleteBlog, bind, DeleteOne, call. rewrite Hid.
  repeat split.
  - intros e s' H. rewrite H. reflexivity.
  - intros res s' H Hz. rewrite H, Hz. reflexivity.
  - intros res s' H Hz. rewrite H.
    destruct (Z.eqb_spec (mongo.DeletedCount res) 0); [contradiction | reflexivity].
Qed.

(** *** Read *)

(** Every error of the lookup's [Decode] takes the one error branch of
    [ReadBlog]: no matching record, a failure of the store, and a record
    that does not decode are all reported as [NotFound]. *)
Lemma ReadBlog_decode_error ctx req w oid res e s' :
  primitive.ObjectIDFromHex (blogpb.read_BlogId req) = Ok oid ->
  mongo.findOne Background oid (collection w) = (res, s') ->
  SingleResult_Decode res = Fail e ->
  ReadBlog ctx req w
  = (Failure (status.Errorf codes.NotFound "Blog not found: " (Some e)),
     after w (EFindOne Background oid) s').
Proof.
  intros Hid H He. unfold ReadBlog, bind, FindOne, call.
  rewrite Hid, H, He. reflexivity.
Qed.

Lemma ReadBlog_found ctx req w oid raw data s' :
  primitive.ObjectIDFromHex (blogpb.read_BlogId req) = Ok oid ->
  mongo.findOne Background oid (collection w) = (Ok raw, s') ->
  mongo.unmarshal raw = Ok data ->
  ReadBlog ctx req w
  = (Response {| blogpb.found_Blog := blogItemToBlogpb data |},
     after w (EFindOne Background oid) s').
Proof.
  intros Hid H Hd. unfold ReadBlog, bind, FindOne, call.
  rewrite Hid, H. simpl. rewrite Hd. reflexivity.
Qed.

(** *** The calls of the unary handlers *)

Lemma background_only_refl w : background_only w w.
Proof. exists []. split; [now rewrite app_nil_r | constructor]. Qed.

Lemma background_only_after w e s :
  under_background e -> background_only w (after w e s).
Proof. intros H. exists [e]. split; [reflexivity | now constructor]. Qed.

Lemma CreateBlog_calls ctx req w : background_only w (snd (CreateBlog ctx req w)).
Proof.
  unfold CreateBlog, bind, InsertOne, call.
  destruct (mongo.insertOne _ _ _) as [[resp | e] s']; simpl.
  - destruct (mongo.asObjectID _); now apply background_only_after.
  - now apply background_only_after.
Qed.

Lemma ReadBlog_calls ctx req w : background_only w (snd (ReadBlog ctx req w)).
Proof.
  unfold ReadBlog, bind, FindOne, call.
  destruct (primitive.ObjectIDFromHex _) as [oid | e]; [| apply background_only_refl].
  destruct (mongo.findOne _ _ _) as [res s']; simpl.
  destruct (SingleResult_Decode res); now apply background_only_after.
Qed.

Lemma UpdateBlog_calls ctx req w : background_only w (snd (UpdateBlog ctx req w)).
Proof.
  unfold UpdateBlog, bind, ReplaceOne, call.
  destruct (primitive.ObjectIDFromHex _) as [oid | e]; [| apply background_only_refl].
  destruct (mongo.replaceOne _ _ _ _) as [[res | e] s']; now apply background_only_after.
Qed.

Lemma DeleteBlog_calls ctx req w : background_only w (snd (DeleteBlog ctx req w)).
Proof.
  unfold DeleteBlog, bind, DeleteOne, call.
  destruct (primitive.ObjectIDFromHex _) as [oid | e]; [| apply background_only_refl].
  destruct (mongo.deleteOne _ _ _) as [[res | e] s']; simpl.
  - destruct (mongo.DeletedCount res =? 0)%Z; now apply background_only_after.
  - now apply background_only_after.
Qed.

End Handlers.

(** ** The scan of [ListBlog] *)

Section Listing.

Context {S R T : Type} {coll : mongo.Collection S R} {srv : ListBlogServer T}.

Implicit Types (w : World S) (cur : mongo.Cursor R) (stream : T).

(** The loop, with [Next] in one piece. *)
Lemma listLoop_Next cur stream w :
  listLoop cur stream w
  = (p <- Next Background cur ;;
     if fst p then
       match Cursor_Decode (snd p) with
       | Fail err =>
           ret (Some (status.Errorf codes.Internal "unable to decode data : " (Some err)),
                snd p, stream)
       | Ok data =>
           q <- Send {| blogpb.listed_Blog := blogItemToBlogpb data |} stream ;;
           listLoop (snd p) (snd q)
       end
     else ret (None, snd p, stream)) w.
Proof.
  rewrite listLoop_equation_1.
  unfold Next, bind, record, ret. simpl.
  destruct (cursor_next Background cur) as [[|] cur1] eqn:E; simpl.
  - unfold bind, record, ret. simpl.
    destruct (Cursor_Decode cur1); [| reflexivity].
    unfold Send, bind, record, ret. simpl.
    destruct (send _ stream). reflexivity.
  - reflexivity.
Qed.

(** What the loop does, read off the batch it starts from: it returns the
    decode error of the first document that does not decode, or falls
    through with the scan's failure in the error slot; it makes the calls
    of [loop_events], leaves the store and the open cursors alone, and
    hands back the cursor it was given, moved on. *)
Lemma listLoop_run cur stream w :
  exists cur' stream',
    listLoop cur stream w
    = (match snd (decoded_prefix (mongo.batch cur)) with
       | Some e => Some (status.Errorf codes.Internal "unable to decode data : " (Some e))
       | None => None
       end, cur', stream',
       {| collection := collection w;
          trace := trace w ++ loop_events (fst (decoded_prefix (mongo.batch cur)));
          cursors := cursors w |})
    /\ (snd (decoded_prefix (mongo.batch cur)) = None ->
        Cursor_Err cur' = mongo.pending cur)
    /\ mongo.cursorID cur' = mongo.cursorID cur.
Proof.
  remember (mongo.batch cur) as docs eqn:Hb.
  revert cur Hb stream w.
  induction docs as [| raw rest IH]; intros cur Hb stream w.
  - rewrite listLoop_Next. unfold Next, bind, record, ret, cursor_next. simpl.
    rewrite <- Hb. simpl. eexists _, _. repeat split.
  - rewrite listLoop_Next. unfold Next, bind, record, ret, cursor_next. simpl.
    rewrite <- Hb. simpl. unfold Cursor_Decode. simpl.
    destruct (mongo.unmarshal raw) as [item | e] eqn:Hraw.
    + unfold Send, bind, record, ret. simpl.
      destruct (send _ stream) as [sendErr stream1].
      simpl.
      match goal with
      | |- context [listLoop ?c ?t ?w1] =>
          destruct (IH c eq_refl t w1) as (cur' & stream' & Hrun & Herr & Hid)
      end.
      rewrite Hrun. simpl.
      destruct (decoded_prefix rest) as [items failure]. simpl in *.
      eexists _, _. split; [| split; [exact Herr | exact Hid]].
      unfold loop_events. simpl. rewrite <- !app_assoc. reflexivity.
    + eexists _, _. split; [reflexivity | split; [discriminate | reflexivity]].
Qed.

Lemma remove_one_head (id : Z) (ids : list Z) : remove_one id (id :: ids) = ids.
Proof. simpl. now rewrite Z.eqb_refl. Qed.

(** A [Find] that succeeds: the call is recorded and the cursor is open. *)
Lemma Find_opened w cur s' :
  mongo.find Background (collection w) = (Ok cur, s') ->
  Find Background w
  = (Ok cur, {| collection := s'; trace := trace w ++ [EFind Background];
                cursors := mongo.cursorID cur :: cursors w |}).
Proof.
  intros Hfind. unfold Find, bind, call. rewrite Hfind. reflexivity.
Qed.

(** The body of [ListBlog], up to its return: the cursor it was given is
    still the one in hand and still open. *)
Lemma listBody_run cur stream w :
  exists cur' stream',
    listBody cur stream w
    = (scan_status cur, cur', stream',
       {| collection := collection w;
          trace := trace w ++ loop_events (fst (decoded_prefix (mongo.batch cur)));
          cursors := cursors w |})
    /\ mongo.cursorID cur' = mongo.cursorID cur.
Proof.
  unfold listBody, bind, scan_status.
  destruct (listLoop_run cur stream w) as (cur' & stream' & Hrun & Herr & Hid).
  rewrite Hrun. exists cur', stream'. split; [| exact Hid].
  destruct (snd (decoded_prefix (mongo.batch cur))) as [e |]; [reflexivity |].
  rewrite (Herr eq_refl). destruct (mongo.pending cur); reflexivity.
Qed.

(** The whole handler on a scan that was opened. *)
Lemma ListBlog_run req stream w cur s' :
  mongo.find Background (collection w) = (Ok cur, s') ->
  exists stream',
    ListBlog req stream w
    = (match snd (decoded_prefix (mongo.batch cur)) with
       | Some e => Some (status.Errorf codes.Internal "unable to decode data : " (Some e))
       | None =>
           match mongo.pending cur with
           | Some e =>
               Some (status.Errorf codes.Internal "internal error from cursor: " (Some e))
           | None => None
           end
       end, stream',
       {| collection := s';
          trace := trace w ++ EFind Background
                     :: loop_events (fst (decoded_prefix (mongo.batch cur)))
                     ++ [EClose Background (mongo.cursorID cur)];
          cursors := cursors w |}).
Proof.
  intros Hfind. unfold ListBlog. unfold bind at 1. rewrite (Find_opened w cur s' Hfind).
  unfold bind at 1.
  match goal with
  | |- context [listBody cur stream ?w1] =>
      destruct (listBody_run cur stream w1) as (cur' & stream' & Hrun & Hid)
  end.
  rewrite Hrun. exists stream'.
  unfold Close, bind, record, release, ret, after. simpl.
  rewrite Hid, Z.eqb_refl, <- !app_assoc. reflexivity.
Qed.

(** A scan that cannot be opened: [Internal], and no cursor to release. *)
Lemma ListBlog_find_failure req stream w e s' :
  mongo.find Background (collection w) = (Fail e, s') ->
  ListBlog req stream w
  = (Some (status.Errorf codes.Internal "internal error when find collection: " (Some e)),
     stream, after w (EFind Background) s').
Proof.
  intros Hfind. unfold ListBlog, Find, bind, call. rewrite Hfind. reflexivity.
Qed.

Lemma closes_app (a b : list Event) : closes (a ++ b) = closes a + closes b.
Proof.
  induction a as [| e a IH]; [reflexivity |].
  destruct e; simpl; rewrite IH; reflexivity.
Qed.

Lemma sends_app (a b : list Event) : sends (a ++ b) = sends a ++ sends b.
Proof.
  induction a as [| e a IH]; [reflexivity |].
  destruct e; simpl; rewrite IH; reflexivity.
Qed.

Lemma closes_loop_events (items : list blogItem) : closes (loop_events items) = 0.
Proof.
  unfold loop_events. induction items as [| i items IH]; [reflexivity |]. exact IH.
Qed.

Lemma sends_loop_events (items : list blogItem) :
  sends (loop_events items) = map blogItemToBlogpb items.
Proof.
  unfold loop_events. induction items as [| i items IH]; [reflexivity |].
  simpl. now rewrite IH.
Qed.

Lemma loop_events_background (items : list blogItem) :
  Forall under_background (loop_events items).
Proof.
  unfold loop_events. induction items as [| i items IH]; simpl.
  - repeat constructor.
  - constructor; [reflexivity |]. constructor; [exact I | exact IH].
Qed.

(** Decoding a batch whose documents all decode, up to a bad one. *)
Lemma decoded_prefix_app (good : list R) (items : list blogItem) (tail : list R) :
  Forall2 (fun raw item => mongo.unmarshal raw = Ok item) good items ->
  decoded_prefix (good ++ tail)
  = (items ++ fst (decoded_prefix tail), snd (decoded_prefix tail)).
Proof.
  induction 1 as [| raw item good items Hraw _ IH]; simpl.
  - now destruct (decoded_prefix tail).
  - rewrite Hraw, IH. reflexivity.
Qed.

(** *** What [ListBlog] guarantees *)

Lemma ListBlog_calls req stream w : background_only w (snd (ListBlog req stream w)).
Proof.
  destruct (mongo.find Background (collection w)) as [[cur | e] s'] eqn:Hfind.
  - destruct (ListBlog_run req stream w cur s' Hfind) as [stream' ->]. simpl.
    eexists. split; [reflexivity |].
    constructor; [reflexivity |].
    apply Forall_app. split; [apply loop_events_background |].
    constructor; [reflexivity | constructor].
  - rewrite (ListBlog_find_failure req stream w e s' Hfind). simpl.
    now apply background_only_after.
Qed.

(** What [ListBlog] returns and does to the world does not depend on the
    stream it is given: neither the results of [Send] nor the context of the
    call reach the control flow. *)
Lemma ListBlog_stream_irrelevant req stream1 stream2 w :
  fst (fst (ListBlog req stream1 w)) = fst (fst (ListBlog req stream2 w))
  /\ snd (ListBlog req stream1 w) = snd (ListBlog req stream2 w).
Proof.
  destruct (mongo.find Background (collection w)) as [[cur | e] s'] eqn:Hfind.
  - destruct (ListBlog_run req stream1 w cur s' Hfind) as [t1 ->].
    destruct (ListBlog_run req stream2 w cur s' Hfind) as [t2 ->].
    split; reflexivity.
  - rewrite !(ListBlog_find_failure req _ w e s' Hfind). split; reflexivity.
Qed.

(** C8. Whenever [Find] hands out a cursor, [ListBlog] releases that very
    cursor, on each way out.  The cursor is open from the [Find] on; the
    body returns with the same cursor in hand, still open; the last step of
    the handler is [Close] applied to it, which marks it closed and takes
    it off the open cursors, so that the handler leaves the open cursors as
    it found them.  Of the calls added, the last is the [Close] of that
    cursor and no other is a [Close].  The ways out are the three listed: a
    decode error, an error of the cursor after the loop, and completion. *)
Theorem ListBlog_releases_cursor req stream w cur s' :
  mongo.find Background (collection w) = (Ok cur, s') ->
  (exists cur1 stream1 w1 body,
     cursors (snd (Find Background w)) = mongo.cursorID cur :: cursors w
     /\ listBody cur stream (snd (Find Background w))
        = (fst (fst (ListBlog req stream w)), cur1, stream1, w1)
     /\ mongo.cursorID cur1 = mongo.cursorID cur
     /\ cursors w1 = mongo.cursorID cur :: cursors w
     /\ snd (ListBlog req stream w) = snd (Close Background cur1 w1)
     /\ mongo.closed (fst (Close Background cur1 w1)) = true
     /\ cursors (snd (ListBlog req stream w)) = cursors w
     /\ trace (snd (ListBlog req stream w))
        = trace w ++ EFind Background :: body ++ [EClose Background (mongo.cursorID cur)]
     /\ closes body = 0)
  /\ ((exists e, fst (fst (ListBlog req stream w))
                = Some (status.Errorf codes.Internal "unable to decode data : " (Some e)))
      \/ (exists e, fst (fst (ListBlog req stream w))
                   = Some (status.Errorf codes.Internal "internal error from cursor: " (Some e)))
      \/ fst (fst (ListBlog req stream w)) = None).
Proof.
  intros Hfind.
  rewrite (Find_opened w cur s' Hfind). cbn [snd].
  set (w0 := {| collection := s'; trace := trace w ++ [EFind Background];
                cursors := mongo.cursorID cur :: cursors w |}).
  destruct (listBody_run cur stream w0) as (cur1 & stream1 & Hbody & Hid).
  assert (Hrun : ListBlog req stream w
                 = (scan_status cur, stream1,
                    snd (Close Background cur1 (snd (listBody cur stream w0))))).
  { unfold ListBlog. unfold bind at 1. rewrite (Find_opened w cur s' Hfind).
    fold w0. unfold bind at 1. rewrite Hbody. reflexivity. }
  split.
  - exists cur1, stream1, (snd (listBody cur stream w0)),
           (loop_events (fst (decoded_prefix (mongo.batch cur)))).
    rewrite Hrun, Hbody. cbn [fst snd cursors trace collection w0].
    split; [reflexivity |]. split; [reflexivity |]. split; [exact Hid |].
    split; [reflexivity |]. split; [reflexivity |]. split; [reflexivity |].
    unfold Close, bind, record, release, ret, after.
    cbn [fst snd cursors trace collection]. rewrite Hid, remove_one_head.
    split; [reflexivity |]. split; [| apply closes_loop_events].
    rewrite <- !app_assoc. reflexivity.
  - rewrite Hrun. cbn [fst]. unfold scan_status.
    destruct (snd (decoded_prefix (mongo.batch cur))) as [e |]; [left; eauto |].
    destruct (mongo.pending cur) as [e |]; [right; left; eauto | right; right; reflexivity].
Qed.

(** C9. The result of [Send] plays no part: for any stream, however its
    [Send] answers (also when every [Send] fails), a scan whose documents
    all decode and which ends without an error hands every document to
    [Send], in order, and [ListBlog] returns nil, that is OK. *)
Theorem ListBlog_ignores_send_result req stream w cur s' (items : list blogItem) :
  mongo.find Background (collection w) = (Ok cur, s') ->
  Forall2 (fun raw item => mongo.unmarshal raw = Ok item) (mongo.batch cur) items ->
  mongo.pending cur = None ->
  fst (fst (ListBlog req stream w)) = None
  /\ sends (trace (snd (ListBlog req stream w)))
     = sends (trace w) ++ map blogItemToBlogpb items.
Proof.
  intros Hfind Hdocs Hend.
  destruct (ListBlog_run req stream w cur s' Hfind) as [stream' ->]. simpl.
  pose proof (decoded_prefix_app (mongo.batch cur) items [] Hdocs) as Hp.
  rewrite app_nil_r in Hp. rewrite Hp. simpl. rewrite Hend, app_nil_r.
  split; [reflexivity |].
  rewrite sends_app. simpl. rewrite sends_app, sends_loop_events. simpl.
  now rewrite app_nil_r.
Qed.

(** X20. A record that does not decode ends [ListBlog] with [Internal]
    and the decode error as the cause; the records before it were sent and
    none after it is. *)
Lemma ListBlog_decode_failure req stream w cur s' good items bad e rest :
  mongo.find Background (collection w) = (Ok cur, s') ->
  mongo.batch cur = good ++ bad :: rest ->
  Forall2 (fun raw item => mongo.unmarshal raw = Ok item) good items ->
  mongo.unmarshal bad = Fail e ->
  fst (fst (ListBlog req stream w))
  = Some (status.Errorf codes.Internal "unable to decode data : " (Some e))
  /\ sends (trace (snd (ListBlog req stream w)))
     = sends (trace w) ++ map blogItemToBlogpb items.
Proof.
  intros Hfind Hb Hgood Hbad.
  destruct (ListBlog_run req stream w cur s' Hfind) as [stream' ->]. simpl.
  rewrite Hb, (decoded_prefix_app good items (bad :: rest) Hgood).
  simpl. rewrite Hbad. simpl. rewrite app_nil_r.
  split; [reflexivity |].
  rewrite sends_app. simpl. rewrite sends_app, sends_loop_events. simpl.
  now rewrite app_nil_r.
Qed.

(** C10. No handler lets the context of the call reach the store: the
    unary handlers return the same reply and leave the same world under any
    two contexts; [ListBlog] returns the same status and leaves the same
    world for any two streams, whatever context they carry; and every call
    that any of the five adds to the trace went out under
    [context.Background]. *)
Theorem handlers_ignore_request_context :
  (forall ctx1 ctx2 req w, CreateBlog ctx1 req w = CreateBlog ctx2 req w)
  /\ (forall ctx1 ctx2 req w, ReadBlog ctx1 req w = ReadBlog ctx2 req w)
  /\ (forall ctx1 ctx2 req w, UpdateBlog ctx1 req w = UpdateBlog ctx2 req w)
  /\ (forall ctx1 ctx2 req w, DeleteBlog ctx1 req w = DeleteBlog ctx2 req w)
  /\ (forall req stream1 stream2 w,
       fst (fst (ListBlog req stream1 w)) = fst (fst (ListBlog req stream2 w))
       /\ snd (ListBlog req stream1 w) = snd (ListBlog req stream2 w))
  /\ (forall ctx req w, background_only w (snd (CreateBlog ctx req w)))
  /\ (forall ctx req w, background_only w (snd (ReadBlog ctx req w)))
  /\ (forall ctx req w, background_only w (snd (UpdateBlog ctx req w)))
  /\ (forall ctx req w, background_only w (snd (DeleteBlog ctx req w)))
  /\ (forall req stream w, background_only w (snd (ListBlog req stream w))).
Proof.
  repeat split; try reflexivity.
  - apply ListBlog_stream_irrelevant.
  - apply ListBlog_stream_irrelevant.
  - apply CreateBlog_calls.
  - apply ReadBlog_calls.
  - apply UpdateBlog_calls.
  - apply DeleteBlog_calls.
  - apply ListBlog_calls.
Qed.

End Listing.

(** ** The handlers on the in-memory store *)

(** The sample identifiers and their strings. *)
Example sample_ids :
  primitive.ObjectIDFromHex sample.hexA = Ok sample.oidA
  /\ primitive.ObjectIDFromHex sample.hexA_upper = Ok sample.oidA
  /\ primitive.ObjectIDFromHex sample.hexB = Ok sample.oidB
  /\ primitive.ObjectIDFromHex sample.hexC = Ok sample.oidC
  /\ well_formed sample.hexAbsent = true
  /\ well_formed sample.garbage = false.
Proof. repeat split. Qed.

(** The scenario of the specification: create, read, delete, read. *)
Example create_read_delete_read :
  let id := "000000000000000000000001" in
  let view := {| blogpb.Id := id; blogpb.AuthorId := "u1"; blogpb.Title := "hello";
                 blogpb.Content := "world" |} in
  let '(created, w1) := CreateBlog sample.ctx sample.create (boot memstore.empty) in
  let '(found, w2) := ReadBlog sample.ctx (sample.read id) w1 in
  let '(deleted, w3) := DeleteBlog sample.ctx (sample.delete id) w2 in
  let '(again, w4) := ReadBlog sample.ctx (sample.read id) w3 in
  created = Response {| blogpb.created_Blog := view |}
  /\ found = Response {| blogpb.found_Blog := view |}
  /\ deleted = Response {| blogpb.deleted_BlogId := id |}
  /\ code_of again = codes.NotFound
  /\ memstore.docs (collection w4) = [].
Proof. vm_compute. repeat split. Qed.

(** C1. [UpdateBlog] with a well-formed id that no record has: the replace
    call matches nothing and says so in its count, without an error; the
    handler does not look at the count and answers OK with a view of a
    record that does not exist, and the store is as it was. *)
Theorem UpdateBlog_absent_record_returns_OK :
  exists oid,
    primitive.ObjectIDFromHex sample.hexAbsent = Ok oid
    /\ List.find (memstore.has_id oid) (memstore.docs sample.sound) = None
    /\ fst (mongo.replaceOne Background oid (replacement_of (sample.update sample.hexAbsent))
              sample.sound)
       = Ok {| mongo.MatchedCount := 0; mongo.ModifiedCount := 0; mongo.UpsertedCount := 0 |}
    /\ code_of (fst (UpdateBlog sample.ctx (sample.update sample.hexAbsent) (boot sample.sound)))
       = codes.OK
    /\ fst (UpdateBlog sample.ctx (sample.update sample.hexAbsent) (boot sample.sound))
       = Response {| blogpb.updated_Blog := sample.edit sample.hexAbsent |}
    /\ collection (snd (UpdateBlog sample.ctx (sample.update sample.hexAbsent)
                          (boot sample.sound)))
       = sample.sound.
Proof. eexists. vm_compute. repeat split. Qed.

(** C2. [ReadBlog] on a record that is there and does not decode: the
    record stored under [sample.hexB] is found, decoding it fails, and the
    caller gets [NotFound], not [Internal] as [ListBlog] gives for the same
    record. *)
Lemma ReadBlog_decode_failure_is_NotFound :
  primitive.ObjectIDFromHex sample.hexB = Ok sample.oidB
  /\ fst (mongo.findOne Background sample.oidB sample.damaged) = Ok sample.docB
  /\ mongo.unmarshal sample.docB = Fail "bad bytes"
  /\ code_of (fst (ReadBlog sample.ctx (sample.read sample.hexB) (boot sample.damaged)))
     = codes.NotFound
  /\ code_of (fst (ReadBlog sample.ctx (sample.read sample.hexB) (boot sample.damaged)))
     <> codes.Internal.
Proof. vm_compute. repeat split. discriminate. Qed.

(** *** The theorems at concrete inputs *)

Lemma malformed_id_rejected_before_store_witness :
  well_formed sample.garbage = false
  /\ (code_of (fst (ReadBlog sample.ctx (sample.read sample.garbage) (boot sample.sound)))
      = codes.InvalidArgument
      /\ snd (ReadBlog sample.ctx (sample.read sample.garbage) (boot sample.sound))
         = boot sample.sound)
  /\ (code_of (fst (UpdateBlog sample.ctx (sample.update sample.garbage) (boot sample.sound)))
      = codes.InvalidArgument
      /\ snd (UpdateBlog sample.ctx (sample.update sample.garbage) (boot sample.sound))
         = boot sample.sound)
  /\ (code_of (fst (DeleteBlog sample.ctx (sample.delete sample.garbage) (boot sample.sound)))
      = codes.InvalidArgument
      /\ snd (DeleteBlog sample.ctx (sample.delete sample.garbage) (boot sample.sound))
         = boot sample.sound).
Proof.
  destruct (@malformed_id_rejected_before_store memstore.Store memstore.Raw
              memstore.collection sample.garbage sample.ctx (boot sample.sound) eq_refl)
    as (Hr & Hu & Hd).
  split; [reflexivity |]. split; [| split].
  - apply Hr. reflexivity.
  - apply Hu. reflexivity.
  - apply Hd. reflexivity.
Defined.

Lemma CreateBlog_echoes_request_witness :
  CreateBlog sample.ctx sample.create (boot sample.sound)
  = (Response {| blogpb.created_Blog :=
                  {| blogpb.Id := "000000000000000000000009"; blogpb.AuthorId := "u1";
                     blogpb.Title := "hello"; blogpb.Content := "world" |} |},
     after (boot sample.sound) (EInsertOne Background (insertData_of sample.create))
       (snd (memstore.insertOne Background (insertData_of sample.create) sample.sound))).
Proof.
  apply (@CreateBlog_echoes_request memstore.Store memstore.Raw memstore.collection
           sample.ctx sample.create (boot sample.sound)
           {| mongo.InsertedID := mongo.IdObjectID (memstore.fresh 9) |} _
           (memstore.fresh 9)); reflexivity.
Defined.

Lemma CreateBlog_unusable_id_is_Internal_witness :
  fst (CreateBlog sample.ctx sample.create (boot sample.misbehaving))
  = Failure (status.Errorf codes.Internal "Can not convert to ObjectID: " None)
  /\ code_of (fst (CreateBlog sample.ctx sample.create (boot sample.misbehaving)))
     = codes.Internal.
Proof.
  apply (@CreateBlog_unusable_id_is_Internal memstore.Store memstore.Raw memstore.collection
           sample.ctx sample.create (boot sample.misbehaving)
           {| mongo.InsertedID := mongo.IdString "not-an-oid" |}
           (snd (memstore.insertOne Background (insertData_of sample.create)
                   sample.misbehaving))); reflexivity.
Defined.

(** The id of the request is in upper case; the view carries the parsed id
    in its canonical form. *)
Lemma UpdateBlog_reflects_request_witness :
  fst (UpdateBlog sample.ctx (sample.update sample.hexA_upper) (boot sample.sound))
  = Response {| blogpb.updated_Blog := sample.edit sample.hexA |}
  /\ trace (snd (UpdateBlog sample.ctx (sample.update sample.hexA_upper) (boot sample.sound)))
     = [] ++ [EReplaceOne Background sample.oidA
                (replacement_of (sample.update sample.hexA_upper))]
  /\ collection (snd (UpdateBlog sample.ctx (sample.update sample.hexA_upper)
                        (boot sample.sound)))
     = memstore.with_docs sample.sound
         [memstore.Doc (mongo.IdObjectID sample.oidA) "u9" "new content" "new title";
          sample.docC].
Proof.
  apply (@UpdateBlog_reflects_request memstore.Store memstore.Raw memstore.collection
           sample.ctx (sample.update sample.hexA_upper) (boot sample.sound) sample.oidA
           {| mongo.MatchedCount := 1; mongo.ModifiedCount := 1; mongo.UpsertedCount := 0 |});
    reflexivity.
Defined.

(** A store that is down, an id that no record has, and a hit (with the id
    in upper case, which comes back as it was sent). *)
Lemma DeleteBlog_outcomes_witness :
  code_of (fst (DeleteBlog sample.ctx (sample.delete sample.hexA) (boot sample.down)))
  = codes.Internal
  /\ code_of (fst (DeleteBlog sample.ctx (sample.delete sample.hexAbsent) (boot sample.sound)))
     = codes.NotFound
  /\ fst (DeleteBlog sample.ctx (sample.delete sample.hexA_upper) (boot sample.sound))
     = Response {| blogpb.deleted_BlogId := sample.hexA_upper |}.
Proof.
  split; [| split].
  - eapply (proj1 (@DeleteBlog_outcomes memstore.Store memstore.Raw memstore.collection
                     sample.ctx (sample.delete sample.hexA) (boot sample.down)
                     sample.oidA eq_refl)).
    reflexivity.
  - eapply (proj1 (proj2 (@DeleteBlog_outcomes memstore.Store memstore.Raw
                            memstore.collection sample.ctx (sample.delete sample.hexAbsent)
                            (boot sample.sound) _ eq_refl))).
    + reflexivity.
    + reflexivity.
  - eapply (proj2 (proj2 (@DeleteBlog_outcomes memstore.Store memstore.Raw
                            memstore.collection sample.ctx (sample.delete sample.hexA_upper)
                            (boot sample.sound) sample.oidA eq_refl))).
    + reflexivity.
    + simpl. discriminate.
Defined.

(** The three ways out of [ListBlog], each ending with the release of the
    cursor that [Find] handed out: a record that does not decode, a scan
    that breaks off, and completion.  No cursor is left open. *)
Lemma ListBlog_releases_cursor_witness :
  ((exists body,
      trace (snd (ListBlog sample.listAll wire.open (boot sample.damaged)))
      = [] ++ EFind Background :: body
           ++ [EClose Background (mongo.cursorID (memstore.scan sample.damaged))]
      /\ closes body = 0)
   /\ cursors (snd (ListBlog sample.listAll wire.open (boot sample.damaged))) = []
   /\ fst (fst (ListBlog sample.listAll wire.open (boot sample.damaged)))
      = Some (status.Errorf codes.Internal "unable to decode data : " (Some "bad bytes")))
  /\ ((exists body,
       trace (snd (ListBlog sample.listAll wire.open (boot sample.flaky)))
       = [] ++ EFind Background :: body
            ++ [EClose Background (mongo.cursorID (memstore.scan sample.flaky))]
       /\ closes body = 0)
      /\ cursors (snd (ListBlog sample.listAll wire.open (boot sample.flaky))) = []
      /\ fst (fst (ListBlog sample.listAll wire.open (boot sample.flaky)))
         = Some (status.Errorf codes.Internal "internal error from cursor: "
                   (Some "connection reset")))
  /\ ((exists body,
       trace (snd (ListBlog sample.listAll wire.open (boot sample.sound)))
       = [] ++ EFind Background :: body
            ++ [EClose Background (mongo.cursorID (memstore.scan sample.sound))]
       /\ closes body = 0)
      /\ cursors (snd (ListBlog sample.listAll wire.open (boot sample.sound))) = []
      /\ fst (fst (ListBlog sample.listAll wire.open (boot sample.sound))) = None).
Proof.
  split; [| split].
  - destruct (proj1 (@ListBlog_releases_cursor memstore.Store memstore.Raw wire.Stream
                       memstore.collection wire.server sample.listAll wire.open
                       (boot sample.damaged) (memstore.scan sample.damaged) sample.damaged
                       ltac:(reflexivity)))
      as (cur1 & stream1 & w1 & body & _ & _ & _ & _ & _ & _ & Hheld & Htrace & Hcloses).
    split; [exists body; split; [exact Htrace | exact Hcloses] |].
    split; [exact Hheld | reflexivity].
  - destruct (proj1 (@ListBlog_releases_cursor memstore.Store memstore.Raw wire.Stream
                       memstore.collection wire.server sample.listAll wire.open
                       (boot sample.flaky) (memstore.scan sample.flaky) sample.flaky
                       ltac:(reflexivity)))
      as (cur1 & stream1 & w1 & body & _ & _ & _ & _ & _ & _ & Hheld & Htrace & Hcloses).
    split; [exists body; split; [exact Htrace | exact Hcloses] |].
    split; [exact Hheld | reflexivity].
  - destruct (proj1 (@ListBlog_releases_cursor memstore.Store memstore.Raw wire.Stream
                       memstore.collection wire.server sample.listAll wire.open
                       (boot sample.sound) (memstore.scan sample.sound) sample.sound
                       ltac:(reflexivity)))
      as (cur1 & stream1 & w1 & body & _ & _ & _ & _ & _ & _ & Hheld & Htrace & Hcloses).
    split; [exists body; split; [exact Htrace | exact Hcloses] |].
    split; [exact Hheld | reflexivity].
Defined.

(** A client that is gone: every [Send] fails and nothing is delivered, yet
    [ListBlog] hands over both records and returns nil. *)
Lemma ListBlog_ignores_send_result_witness :
  fst (send {| blogpb.listed_Blog := blogItemToBlogpb sample.itemA |} wire.gone)
  = Some "context canceled"
  /\ wire.delivered (snd (fst (ListBlog sample.listAll wire.gone (boot sample.sound)))) = []
  /\ fst (fst (ListBlog sample.listAll wire.gone (boot sample.sound))) = None
  /\ sends (trace (snd (ListBlog sample.listAll wire.gone (boot sample.sound))))
     = [] ++ map blogItemToBlogpb [sample.itemA; sample.itemC].
Proof.
  split; [reflexivity |]. split; [reflexivity |].
  apply (@ListBlog_ignores_send_result memstore.Store memstore.Raw wire.Stream
           memstore.collection wire.server sample.listAll wire.gone (boot sample.sound)
           (memstore.scan sample.sound) sample.sound).
  - reflexivity.
  - repeat constructor.
  - reflexivity.
Defined.

(** * Further properties of the handlers *)

(** ** Which identifier strings pass *)

Lemma DecodeString_hex_digits (n : nat) :
  forall s : string,
    String.length s <= n ->
    Nat.even (String.length s) = true ->
    ((exists bs, hex.DecodeString s = Ok bs) <-> hex_digits s = true).
Proof.
  induction n as [| n IH]; intros s Hn Heven.
  - destruct s; [| simpl in Hn; lia]. simpl. split; [reflexivity | eauto].
  - destruct s as [| hi [| lo rest]].
    + simpl. split; [reflexivity | eauto].
    + discriminate.
    + assert (Hrest : (exists bs, hex.DecodeString rest = Ok bs) <-> hex_digits rest = true).
      { apply IH; [simpl in Hn; lia | exact Heven]. }
      cbn [hex.DecodeString hex_digits]. unfold is_hex_digit.
      destruct (hex.fromHexChar hi) as [h |]; [| split; [intros [bs H] |]; discriminate].
      destruct (hex.fromHexChar lo) as [l |]; [| split; [intros [bs H] |]; discriminate].
      cbn [andb]. rewrite <- Hrest.
      destruct (hex.DecodeString rest) as [bs' | e].
      * split; eauto.
      * split; intros [bs H]; discriminate.
Qed.

(** The strings that parse are the strings of 24 hex digits, in either
    letter case. *)
Lemma well_formed_hex_digits (s : string) :
  well_formed s = true <-> String.length s = 24 /\ hex_digits s = true.
Proof.
  unfold well_formed, primitive.ObjectIDFromHex.
  destruct (Nat.eqb_spec (String.length s) 24) as [Hlen | Hlen]; cbn [negb].
  - pose proof (DecodeString_hex_digits 24 s) as H.
    rewrite Hlen in H. specialize (H (le_n _) eq_refl).
    destruct (hex.DecodeString s) as [bs | e].
    + split; [intros _; split; [exact Hlen | apply H; eauto] | reflexivity].
    + split; [discriminate |]. intros [_ Hd]. apply H in Hd as [bs Hd]. discriminate.
  - split; [discriminate | intros [Hl _]; contradiction].
Qed.

Section Unary.

Context {S R : Type} {coll : mongo.Collection S R}.

Implicit Types (w : World S) (ctx : Context).

(** ** Create *)

(** X1. An insert that fails makes [CreateBlog] fail with [Internal], the
    error of the store as the cause; the store is as the failed call left
    it. *)
Theorem CreateBlog_insert_failure_is_Internal ctx req w e s' :
  mongo.insertOne Background (insertData_of req) (collection w) = (Fail e, s') ->
  fst (CreateBlog ctx req w)
  = Failure (status.Errorf codes.Internal "Interal error: " (Some e))
  /\ code_of (fst (CreateBlog ctx req w)) = codes.Internal
  /\ collection (snd (CreateBlog ctx req w)) = s'.
Proof.
  intros H. rewrite (CreateBlog_store_failure ctx req w e s' H). repeat split.
Qed.

(** X2. [CreateBlog] reads the author, title and content of the request
    and nothing else: two requests that agree on the three, whatever ids
    their blogs carry and whether or not a blog is there at all, get the
    same reply and leave the same world. *)
Theorem CreateBlog_reads_three_fields ctx1 ctx2 req1 req2 w :
  blogpb.GetAuthorId (blogpb.create_Blog req1) = blogpb.GetAuthorId (blogpb.create_Blog req2) ->
  blogpb.GetTitle (blogpb.create_Blog req1) = blogpb.GetTitle (blogpb.create_Blog req2) ->
  blogpb.GetContent (blogpb.create_Blog req1) = blogpb.GetContent (blogpb.create_Blog req2) ->
  CreateBlog ctx1 req1 w = CreateBlog ctx2 req2 w.
Proof.
  intros Ha Ht Hc. unfold CreateBlog. rewrite Ha, Ht, Hc. reflexivity.
Qed.

(** ** One call for each request *)

(** X3. A unary handler makes exactly one call on the store and leaves the
    store as that call left it: [CreateBlog] always an insert of a record
    without id, the other three, once the id parsed, a lookup, a replace
    (of a payload without id) and a delete filtered by the parsed id. *)
Theorem unary_handlers_single_call :
  (forall ctx req w,
     snd (CreateBlog ctx req w)
     = after w (EInsertOne Background (insertData_of req))
         (snd (mongo.insertOne Background (insertData_of req) (collection w)))
     /\ ID (insertData_of req) = primitive.NilObjectID)
  /\ (forall ctx req w oid,
     primitive.ObjectIDFromHex (blogpb.read_BlogId req) = Ok oid ->
     snd (ReadBlog ctx req w)
     = after w (EFindOne Background oid)
         (snd (mongo.findOne Background oid (collection w))))
  /\ (forall ctx req w oid,
     primitive.ObjectIDFromHex (blogpb.GetId (blogpb.update_Blog req)) = Ok oid ->
     snd (UpdateBlog ctx req w)
     = after w (EReplaceOne Background oid (replacement_of req))
         (snd (mongo.replaceOne Background oid (replacement_of req) (collection w)))
     /\ ID (replacement_of req) = primitive.NilObjectID)
  /\ (forall ctx req w oid,
     primitive.ObjectIDFromHex (blogpb.delete_BlogId req) = Ok oid ->
     snd (DeleteBlog ctx req w)
     = after w (EDeleteOne Background oid)
         (snd (mongo.deleteOne Background oid (collection w)))).
Proof.
  split; [| split; [| split]].
  - intros ctx req w. split; [| reflexivity].
    unfold CreateBlog, bind, InsertOne, call. fold (insertData_of req).
    destruct (mongo.insertOne _ _ _) as [[resp | e] s']; simpl; [| reflexivity].
    destruct (mongo.asObjectID _); reflexivity.
  - intros ctx req w oid Hid. unfold ReadBlog, bind, FindOne, call. rewrite Hid.
    destruct (mongo.findOne _ _ _) as [res s']; simpl.
    destruct (SingleResult_Decode res); reflexivity.
  - intros ctx req w oid Hid. split; [| reflexivity].
    unfold UpdateBlog, bind, ReplaceOne, call. rewrite Hid. fold (replacement_of req).
    destruct (mongo.replaceOne _ _ _ _) as [[res | e] s']; reflexivity.
  - intros ctx req w oid Hid. unfold DeleteBlog, bind, DeleteOne, call. rewrite Hid.
    destruct (mongo.deleteOne _ _ _) as [[res | e] s']; simpl; [| reflexivity].
    destruct (mongo.DeletedCount res =? 0)%Z; reflexivity.
Qed.

(** ** Read *)

(** X4. When the lookup finds a record that decodes, [ReadBlog] answers
    with the view of that record: the hex form of its stored id and its
    stored author, title and content. *)
Theorem ReadBlog_returns_stored_record ctx req w oid raw data s' :
  primitive.ObjectIDFromHex (blogpb.read_BlogId req) = Ok oid ->
  mongo.findOne Background oid (collection w) = (Ok raw, s') ->
  mongo.unmarshal raw = Ok data ->
  fst (ReadBlog ctx req w)
  = Response {| blogpb.found_Blog :=
                 {| blogpb.Id := primitive.Hex (ID data);
                    blogpb.AuthorId := AuthorID data;
                    blogpb.Title := Title data;
                    blogpb.Content := Content data |} |}.
Proof.
  intros Hid H Hd. now rewrite (ReadBlog_found ctx req w oid raw data s' Hid H Hd).
Qed.

(** X5. When the lookup itself returns an error, be it that no record
    matches or that the store could not be reached, [ReadBlog] fails with
    [NotFound] and that error as the cause. *)
Theorem ReadBlog_lookup_error_is_NotFound ctx req w oid e s' :
  primitive.ObjectIDFromHex (blogpb.read_BlogId req) = Ok oid ->
  mongo.findOne Background oid (collection w) = (Fail e, s') ->
  fst (ReadBlog ctx req w)
  = Failure (status.Errorf codes.NotFound "Blog not found: " (Some e))
  /\ code_of (fst (ReadBlog ctx req w)) = codes.NotFound.
Proof.
  intros Hid H.
  rewrite (ReadBlog_decode_error ctx req w oid (Fail e) e s' Hid H eq_refl).
  split; reflexivity.
Qed.

(** ** Update *)

(** X6. A replace call that returns an error makes [UpdateBlog] fail with
    [NotFound], whatever the error was, with that error as the cause. *)
Theorem UpdateBlog_replace_error_is_NotFound ctx req w oid e s' :
  primitive.ObjectIDFromHex (blogpb.GetId (blogpb.update_Blog req)) = Ok oid ->
  mongo.replaceOne Background oid (replacement_of req) (collection w) = (Fail e, s') ->
  fst (UpdateBlog ctx req w)
  = Failure (status.Errorf codes.NotFound "Can not update blog : " (Some e))
  /\ code_of (fst (UpdateBlog ctx req w)) = codes.NotFound.
Proof.
  intros Hid H. rewrite (UpdateBlog_store_failure ctx req w oid e s' Hid H).
  split; reflexivity.
Qed.

Lemma hextable_lower (d : N) :
  (d < 16)%N -> is_lower_hex_digit (hex.hextable d) = true.
Proof.
  intros H.
  assert (Hd : In d [0; 1; 2; 3; 4; 5; 6; 7; 8; 9; 10; 11; 12; 13; 14; 15]%N).
  { simpl. lia. }
  simpl in Hd.
  repeat (destruct Hd as [<- | Hd]; [reflexivity |]).
  contradiction.
Qed.

(** [Hex] writes lower-case digits only. *)
Lemma Hex_lower_case (oid : primitive.ObjectID) :
  Forall (fun b => (b < 256)%N) oid ->
  lower_hex_digits (primitive.Hex oid) = true.
Proof.
  unfold primitive.Hex.
  induction 1 as [| b bs Hb _ IH]; [reflexivity |].
  cbn [hex.EncodeToString lower_hex_digits].
  rewrite !hextable_lower, IH; [reflexivity | |].
  - apply N.mod_lt. lia.
  - apply N.Div0.div_lt_upper_bound. lia.
Qed.

(** X7. The id of an [UpdateBlog] response is the canonical spelling of the
    id of the request: it is the hex form [Hex] gives the parsed
    identifier, 24 lower-case hex digits that parse to the same
    identifier, however the request spelled it. *)
Theorem UpdateBlog_response_id_is_canonical ctx req w oid res s' :
  primitive.ObjectIDFromHex (blogpb.GetId (blogpb.update_Blog req)) = Ok oid ->
  mongo.replaceOne Background oid (replacement_of req) (collection w) = (Ok res, s') ->
  exists view,
    fst (UpdateBlog ctx req w) = Response {| blogpb.updated_Blog := view |}
    /\ blogpb.Id view = primitive.Hex oid
    /\ String.length (blogpb.Id view) = 24
    /\ lower_hex_digits (blogpb.Id view) = true
    /\ primitive.ObjectIDFromHex (blogpb.Id view) = Ok oid.
Proof.
  intros Hid H. rewrite (UpdateBlog_store_success ctx req w oid res s' Hid H).
  eexists. split; [reflexivity |]. cbn [blogpb.Id].
  pose proof (ObjectIDFromHex_wf _ _ Hid) as Hwf.
  split; [reflexivity |].
  split; [| split; [apply Hex_lower_case, Hwf | now apply ObjectIDFromHex_Hex]].
  unfold primitive.Hex. rewrite EncodeToString_length. destruct Hwf as [-> _]. reflexivity.
Qed.

End Unary.

(** ** Views and records *)

Lemma Hex_injective (a b : primitive.ObjectID) :
  primitive.wf_oid a -> primitive.wf_oid b ->
  primitive.Hex a = primitive.Hex b -> a = b.
Proof.
  intros Ha Hb E.
  apply ObjectIDFromHex_Hex in Ha. apply ObjectIDFromHex_Hex in Hb.
  rewrite E in Ha. rewrite Ha in Hb. now injection Hb.
Qed.

(** X8. [blogItemToBlogpb] loses nothing: two records with twelve-byte ids
    that have the same view are the same record. *)
Theorem blogItemToBlogpb_injective (a b : blogItem) :
  primitive.wf_oid (ID a) -> primitive.wf_oid (ID b) ->
  blogItemToBlogpb a = blogItemToBlogpb b -> a = b.
Proof.
  intros Ha Hb E. unfold blogItemToBlogpb in E.
  injection E as Hid Hauthor Htitle Hcontent.
  apply (Hex_injective _ _ Ha Hb) in Hid.
  destruct a, b. simpl in *. subst. reflexivity.
Qed.

Section Composition.

Context {S R : Type} {coll : mongo.Collection S R}.

Implicit Types (w : World S) (ctx : Context).

(** X9. The id that [CreateBlog] returns for a twelve-byte identifier of
    the store is a well-formed id, and [ReadBlog], [UpdateBlog] and
    [DeleteBlog] called with it address that very identifier: their one
    call on the store is filtered by it. *)
Theorem created_id_addresses_assigned_record ctx req w resp s' oid :
  mongo.insertOne Background (insertData_of req) (collection w) = (Ok resp, s') ->
  mongo.InsertedID resp = mongo.IdObjectID oid ->
  primitive.wf_oid oid ->
  exists view,
    fst (CreateBlog ctx req w) = Response {| blogpb.created_Blog := view |}
    /\ well_formed (blogpb.Id view) = true
    /\ (forall ctx' w',
          trace (snd (ReadBlog ctx' {| blogpb.read_BlogId := blogpb.Id view |} w'))
          = trace w' ++ [EFindOne Background oid])
    /\ (forall ctx' w' edit,
          blogpb.Id edit = blogpb.Id view ->
          trace (snd (UpdateBlog ctx' {| blogpb.update_Blog := Some edit |} w'))
          = trace w' ++ [EReplaceOne Background oid
                           (replacement_of {| blogpb.update_Blog := Some edit |})])
    /\ (forall ctx' w',
          trace (snd (DeleteBlog ctx' {| blogpb.delete_BlogId := blogpb.Id view |} w'))
          = trace w' ++ [EDeleteOne Background oid]).
Proof.
  intros H Hid Hwf.
  unfold CreateBlog at 1. unfold bind, InsertOne, call.
  fold (insertData_of req). rewrite H, Hid.
  eexists. split; [reflexivity |]. simpl.
  pose proof (ObjectIDFromHex_Hex oid Hwf) as Hparse.
  split; [| split; [| split]].
  - unfold well_formed. now rewrite Hparse.
  - intros ctx' w'. unfold ReadBlog, bind, FindOne, call. simpl. rewrite Hparse.
    destruct (mongo.findOne _ _ _) as [res s1]; simpl.
    destruct (SingleResult_Decode res); reflexivity.
  - intros ctx' w' edit E. unfold UpdateBlog, bind, ReplaceOne, call. simpl.
    rewrite E, Hparse.
    destruct (mongo.replaceOne _ _ _ _) as [[res | e] s1]; reflexivity.
  - intros ctx' w'. unfold DeleteBlog, bind, DeleteOne, call. simpl. rewrite Hparse.
    destruct (mongo.deleteOne _ _ _) as [[res | e] s1]; simpl; [| reflexivity].
    destruct (mongo.DeletedCount res =? 0)%Z; reflexivity.
Qed.

(** X10. Writing a view back: [UpdateBlog] called with the view of a record
    replaces, under the id of that record, a payload with the fields of
    that record, and when the replace succeeds it answers with the same
    view. *)
Theorem UpdateBlog_view_written_back ctx w (item : blogItem) :
  primitive.wf_oid (ID item) ->
  let req := {| blogpb.update_Blog := Some (blogItemToBlogpb item) |} in
  trace (snd (UpdateBlog ctx req w))
  = trace w ++ [EReplaceOne Background (ID item)
                  {| ID := primitive.NilObjectID; AuthorID := AuthorID item;
                     Content := Content item; Title := Title item |}]
  /\ (forall res s',
        mongo.replaceOne Background (ID item) (replacement_of req) (collection w)
        = (Ok res, s') ->
        fst (UpdateBlog ctx req w)
        = Response {| blogpb.updated_Blog := blogItemToBlogpb item |}).
Proof.
  intros Hwf req.
  assert (Hparse : primitive.ObjectIDFromHex (blogpb.GetId (blogpb.update_Blog req))
                   = Ok (ID item)).
  { simpl. now apply ObjectIDFromHex_Hex. }
  split.
  - unfold UpdateBlog, bind, ReplaceOne, call. rewrite Hparse.
    destruct (mongo.replaceOne _ _ _ _) as [[res | e] s1]; reflexivity.
  - intros res s' H.
    now rewrite (UpdateBlog_store_success ctx req w (ID item) res s' Hparse H).
Qed.

(** X11. Which ids are turned down: [ReadBlog], [UpdateBlog] and
    [DeleteBlog] answer [InvalidArgument] exactly for the ids that are not
    24 hex digits; for the others they go on to the store and answer
    something else. *)
Theorem InvalidArgument_iff_not_24_hex_digits ctx w (s : string) :
  let accepted := (String.length s =? 24)%nat && hex_digits s in
  (forall req, blogpb.read_BlogId req = s ->
     (code_of (fst (ReadBlog ctx req w)) = codes.InvalidArgument <-> accepted = false))
  /\ (forall req, blogpb.GetId (blogpb.update_Blog req) = s ->
     (code_of (fst (UpdateBlog ctx req w)) = codes.InvalidArgument <-> accepted = false))
  /\ (forall req, blogpb.delete_BlogId req = s ->
     (code_of (fst (DeleteBlog ctx req w)) = codes.InvalidArgument <-> accepted = false)).
Proof.
  intros accepted.
  assert (Hacc : accepted = well_formed s).
  { unfold accepted. destruct (well_formed s) eqn:E.
    - apply well_formed_hex_digits in E as [Hl Hd]. now rewrite Hl, Hd.
    - destruct ((String.length s =? 24)%nat && hex_digits s) eqn:E'; [| reflexivity].
      apply andb_true_iff in E' as [Hl Hd]. apply Nat.eqb_eq in Hl.
      rewrite <- E. symmetry. apply well_formed_hex_digits. now split. }
  rewrite Hacc. clear Hacc accepted.
  destruct (well_formed s) eqn:E.
  - apply well_formed_true in E as [oid Hid].
    split; [| split]; intros req <-; (split; [| discriminate]).
    + unfold ReadBlog, bind, FindOne, call. rewrite Hid.
      destruct (mongo.findOne _ _ _) as [res s1]; simpl.
      destruct (SingleResult_Decode res); discriminate.
    + unfold UpdateBlog, bind, ReplaceOne, call. rewrite Hid.
      destruct (mongo.replaceOne _ _ _ _) as [[res | e] s1]; discriminate.
    + unfold DeleteBlog, bind, DeleteOne, call. rewrite Hid.
      destruct (mongo.deleteOne _ _ _) as [[res | e] s1]; simpl; [| discriminate].
      destruct (mongo.DeletedCount res =? 0)%Z; discriminate.
  - split; [| split]; intros req Hs; rewrite <- Hs in E; (split; [reflexivity |]); intros _.
    + now apply ReadBlog_malformed.
    + now apply UpdateBlog_malformed.
    + now apply DeleteBlog_malformed.
Qed.

(** X12. A request without a blog message: [UpdateBlog] turns it down as
    [InvalidArgument] (its id reads as the empty string) and makes no call;
    [CreateBlog] takes it and inserts a record of three empty fields. *)
Theorem requests_without_blog ctx w :
  (forall req, blogpb.update_Blog req = None ->
     code_of (fst (UpdateBlog ctx req w)) = codes.InvalidArgument
     /\ snd (UpdateBlog ctx req w) = w)
  /\ (forall req, blogpb.create_Blog req = None ->
     trace (snd (CreateBlog ctx req w))
     = trace w ++ [EInsertOne Background
                     {| ID := primitive.NilObjectID; AuthorID := ""; Content := "";
                        Title := "" |}]).
Proof.
  split; intros req Hnone.
  - apply UpdateBlog_malformed. rewrite Hnone. reflexivity.
  - unfold CreateBlog, bind, InsertOne, call. rewrite Hnone. simpl.
    destruct (mongo.insertOne _ _ _) as [[resp | e] s']; simpl; [| reflexivity].
    destruct (mongo.asObjectID _); reflexivity.
Qed.

End Composition.

(** ** More on the scan *)

Section Scan.

Context {S R T : Type} {coll : mongo.Collection S R} {srv : ListBlogServer T}.

Implicit Types (w : World S) (cur : mongo.Cursor R) (stream : T).

(** The loop again, now with the stream it leaves. *)
Lemma listLoop_stream cur stream w :
  snd (fst (listLoop cur stream w))
  = send_all (fst (decoded_prefix (mongo.batch cur))) stream.
Proof.
  remember (mongo.batch cur) as docs eqn:Hb.
  revert cur Hb stream w.
  induction docs as [| raw rest IH]; intros cur Hb stream w.
  - rewrite listLoop_Next. unfold Next, bind, record, ret, cursor_next. simpl.
    rewrite <- Hb. reflexivity.
  - rewrite listLoop_Next. unfold Next, bind, record, ret, cursor_next. simpl.
    rewrite <- Hb. simpl. unfold Cursor_Decode. simpl.
    destruct (mongo.unmarshal raw) as [item | e] eqn:Hraw; [| reflexivity].
    unfold Send, bind, record, ret. simpl.
    destruct (send _ stream) as [sendErr stream1] eqn:Hsend. simpl.
    rewrite IH by reflexivity.
    destruct (decoded_prefix rest) as [items failure]. simpl.
    now rewrite Hsend.
Qed.

Lemma ListBlog_stream req stream w cur s' :
  mongo.find Background (collection w) = (Ok cur, s') ->
  snd (fst (ListBlog req stream w))
  = send_all (fst (decoded_prefix (mongo.batch cur))) stream.
Proof.
  intros Hfind. unfold ListBlog. unfold bind at 1. rewrite (Find_opened w cur s' Hfind).
  unfold listBody, bind.
  match goal with
  | |- context [listLoop cur stream ?w0] =>
      pose proof (listLoop_stream cur stream w0) as Hs;
      destruct (listLoop cur stream w0) as [[[returned cur'] stream'] w']
  end.
  simpl in Hs. subst stream'.
  destruct returned as [st |]; [reflexivity |].
  destruct (Cursor_Err cur'); reflexivity.
Qed.

(** What [decoded_prefix] splits a batch into. *)
Lemma decoded_prefix_split (docs : list R) :
  exists good tail,
    docs = good ++ tail
    /\ Forall2 (fun raw item => mongo.unmarshal raw = Ok item) good (fst (decoded_prefix docs))
    /\ match snd (decoded_prefix docs) with
       | None => tail = []
       | Some e => exists bad rest, tail = bad :: rest /\ mongo.unmarshal bad = Fail e
       end.
Proof.
  induction docs as [| raw rest (good & tail & Hsplit & Hgood & Htail)].
  - exists [], []. repeat split. constructor.
  - simpl. destruct (mongo.unmarshal raw) as [item | e] eqn:Hraw.
    + destruct (decoded_prefix rest) as [items failure]. simpl in *.
      exists (raw :: good), tail. split; [now rewrite Hsplit |].
      split; [now constructor | exact Htail].
    + exists [], (raw :: rest). simpl. repeat split; [constructor | eauto].
Qed.

Lemma nexts_app (a b : list Event) : nexts (a ++ b) = nexts a + nexts b.
Proof.
  induction a as [| e a IH]; [reflexivity |].
  destruct e; simpl; rewrite IH; reflexivity.
Qed.

Lemma nexts_loop_events (items : list blogItem) :
  nexts (loop_events items) = Datatypes.S (List.length items).
Proof.
  unfold loop_events. induction items as [| i items IH]; [reflexivity |].
  simpl. now rewrite IH.
Qed.

(** X13. What [ListBlog] sends: the cursor's documents split into those
    that decode, up to the end or to the first one that does not; the
    views of the former go to [Send], each once and in the order of the
    cursor, with one [Next] for each and one more to end the loop; and the
    stream is left as those sends, and nothing else, made it. *)
Theorem ListBlog_sends_in_cursor_order req stream w cur s' :
  mongo.find Background (collection w) = (Ok cur, s') ->
  exists good items tail,
    mongo.batch cur = good ++ tail
    /\ Forall2 (fun raw item => mongo.unmarshal raw = Ok item) good items
    /\ (tail = [] \/ exists bad rest e, tail = bad :: rest /\ mongo.unmarshal bad = Fail e)
    /\ sends (trace (snd (ListBlog req stream w)))
       = sends (trace w) ++ map blogItemToBlogpb items
    /\ nexts (trace (snd (ListBlog req stream w)))
       = nexts (trace w) + Datatypes.S (List.length items)
    /\ snd (fst (ListBlog req stream w)) = send_all items stream.
Proof.
  intros Hfind.
  destruct (decoded_prefix_split (mongo.batch cur)) as (good & tail & Hsplit & Hgood & Htail).
  exists good, (fst (decoded_prefix (mongo.batch cur))), tail.
  split; [exact Hsplit |]. split; [exact Hgood |].
  split.
  { destruct (snd (decoded_prefix (mongo.batch cur))) as [e |].
    - right. destruct Htail as (bad & rest & -> & Hbad). eauto.
    - now left. }
  rewrite (ListBlog_stream req stream w cur s' Hfind).
  destruct (ListBlog_run req stream w cur s' Hfind) as [stream' ->]. simpl.
  split; [| split; [| reflexivity]].
  - rewrite sends_app. simpl. rewrite sends_app, sends_loop_events. simpl.
    now rewrite app_nil_r.
  - rewrite nexts_app. simpl. rewrite nexts_app, nexts_loop_events. simpl. lia.
Qed.

(** X14. When the scan cannot be opened, [ListBlog] fails with [Internal]
    and the error of the store as the cause; the [Find] is its only call:
    nothing is sent, no cursor is read or released, and the stream is as it
    was. *)
Theorem ListBlog_find_failure_is_Internal req stream w e s' :
  mongo.find Background (collection w) = (Fail e, s') ->
  fst (fst (ListBlog req stream w))
  = Some (status.Errorf codes.Internal "internal error when find collection: " (Some e))
  /\ snd (fst (ListBlog req stream w)) = stream
  /\ trace (snd (ListBlog req stream w)) = trace w ++ [EFind Background]
  /\ collection (snd (ListBlog req stream w)) = s'.
Proof.
  intros Hfind. rewrite (ListBlog_find_failure req stream w e s' Hfind). repeat split.
Qed.

(** X15. When every document decodes and the scan then reports an error,
    [ListBlog] fails with [Internal] and that error as the cause, after all
    the records were sent. *)
Theorem ListBlog_cursor_error_after_sending req stream w cur s' (items : list blogItem) e :
  mongo.find Background (collection w) = (Ok cur, s') ->
  Forall2 (fun raw item => mongo.unmarshal raw = Ok item) (mongo.batch cur) items ->
  mongo.pending cur = Some e ->
  fst (fst (ListBlog req stream w))
  = Some (status.Errorf codes.Internal "internal error from cursor: " (Some e))
  /\ sends (trace (snd (ListBlog req stream w)))
     = sends (trace w) ++ map blogItemToBlogpb items.
Proof.
  intros Hfind Hdocs Hend.
  destruct (ListBlog_run req stream w cur s' Hfind) as [stream' ->]. simpl.
  pose proof (decoded_prefix_app (mongo.batch cur) items [] Hdocs) as Hp.
  rewrite app_nil_r in Hp. rewrite Hp. simpl. rewrite Hend, app_nil_r.
  split; [reflexivity |].
  rewrite sends_app. simpl. rewrite sends_app, sends_loop_events. simpl.
  now rewrite app_nil_r.
Qed.

(** X16. The status kinds of each handler, on every input and every store:
    [CreateBlog] answers OK or [Internal]; [ReadBlog] and [UpdateBlog]
    answer OK, [InvalidArgument] or [NotFound], never [Internal];
    [DeleteBlog] answers one of the four; [ListBlog] answers OK or
    [Internal].  No other code is ever produced. *)
Theorem handler_status_kinds ctx w stream :
  (forall req, In (code_of (fst (CreateBlog ctx req w))) [codes.OK; codes.Internal])
  /\ (forall req, In (code_of (fst (ReadBlog ctx req w)))
                   [codes.OK; codes.InvalidArgument; codes.NotFound])
  /\ (forall req, In (code_of (fst (UpdateBlog ctx req w)))
                   [codes.OK; codes.InvalidArgument; codes.NotFound])
  /\ (forall req, In (code_of (fst (DeleteBlog ctx req w)))
                   [codes.OK; codes.InvalidArgument; codes.NotFound; codes.Internal])
  /\ (forall req, In (code_of_error (fst (fst (ListBlog req stream w))))
                   [codes.OK; codes.Internal]).
Proof.
  split; [| split; [| split; [| split]]]; intros req.
  - unfold CreateBlog, bind, InsertOne, call.
    destruct (mongo.insertOne _ _ _) as [[resp | e] s']; simpl; [| tauto].
    destruct (mongo.asObjectID _); simpl; tauto.
  - unfold ReadBlog, bind, FindOne, call.
    destruct (primitive.ObjectIDFromHex _) as [oid | e]; [| simpl; tauto].
    destruct (mongo.findOne _ _ _) as [res s']; simpl.
    destruct (SingleResult_Decode res); simpl; tauto.
  - unfold UpdateBlog, bind, ReplaceOne, call.
    destruct (primitive.ObjectIDFromHex _) as [oid | e]; [| simpl; tauto].
    destruct (mongo.replaceOne _ _ _ _) as [[res | e] s']; simpl; tauto.
  - unfold DeleteBlog, bind, DeleteOne, call.
    destruct (primitive.ObjectIDFromHex _) as [oid | e]; [| simpl; tauto].
    destruct (mongo.deleteOne _ _ _) as [[res | e] s']; simpl; [| tauto].
    destruct (mongo.DeletedCount res =? 0)%Z; simpl; tauto.
  - destruct (mongo.find Background (collection w)) as [[cur | e] s'] eqn:Hfind.
    + destruct (ListBlog_run req stream w cur s' Hfind) as [stream' ->]. simpl.
      destruct (snd (decoded_prefix (mongo.batch cur))); [simpl; tauto |].
      destruct (mongo.pending cur); simpl; tauto.
    + rewrite (ListBlog_find_failure req stream w e s' Hfind). simpl. tauto.
Qed.

Lemma loop_events_read_only (items : list blogItem) :
  Forall (fun e => is_mutation e = false) (loop_events items).
Proof.
  unfold loop_events. induction items as [| i items IH]; simpl.
  - repeat constructor.
  - constructor; [reflexivity |]. constructor; [reflexivity | exact IH].
Qed.

(** X17. [ReadBlog] and [ListBlog] never change a record: on every input
    and every store, none of the calls they add to the trace is an insert,
    a replace or a delete. *)
Theorem reads_never_mutate ctx w stream :
  (forall req, exists evs,
      trace (snd (ReadBlog ctx req w)) = trace w ++ evs
      /\ Forall (fun e => is_mutation e = false) evs)
  /\ (forall req, exists evs,
      trace (snd (ListBlog req stream w)) = trace w ++ evs
      /\ Forall (fun e => is_mutation e = false) evs).
Proof.
  split; intros req.
  - unfold ReadBlog, bind, FindOne, call.
    destruct (primitive.ObjectIDFromHex _) as [oid | e].
    + destruct (mongo.findOne _ _ _) as [res s']; simpl.
      exists [EFindOne Background oid].
      destruct (SingleResult_Decode res); split; try reflexivity; repeat constructor.
    + exists []. simpl. rewrite app_nil_r. split; [reflexivity | constructor].
  - destruct (mongo.find Background (collection w)) as [[cur | e] s'] eqn:Hfind.
    + destruct (ListBlog_run req stream w cur s' Hfind) as [stream' ->]. simpl.
      eexists. split; [reflexivity |].
      constructor; [reflexivity |].
      apply Forall_app. split; [apply loop_events_read_only | repeat constructor].
    + rewrite (ListBlog_find_failure req stream w e s' Hfind). simpl.
      exists [EFind Background]. split; [reflexivity | repeat constructor].
Qed.

End Scan.

(** ** One handler after another *)

Section RoundTrips.

Context {S R : Type} {coll : mongo.Collection S R}.

Implicit Types (w : World S) (ctx : Context).

Lemma CreateBlog_inserted ctx req w resp s' oid :
  mongo.insertOne Background (insertData_of req) (collection w) = (Ok resp, s') ->
  mongo.InsertedID resp = mongo.IdObjectID oid ->
  CreateBlog ctx req w
  = (Response {| blogpb.created_Blog :=
                  {| blogpb.Id := primitive.Hex oid;
                     blogpb.AuthorId := AuthorID (insertData_of req);
                     blogpb.Title := Title (insertData_of req);
                     blogpb.Content := Content (insertData_of req) |} |},
     after w (EInsertOne Background (insertData_of req)) s').
Proof.
  intros H Hid. unfold CreateBlog, bind, InsertOne, call.
  fold (insertData_of req). rewrite H, Hid. reflexivity.
Qed.

(** X18. Create, then read: when the store hands back, under the id it
    assigned, the record it was given, [ReadBlog] called with the id of the
    [CreateBlog] response answers with the same view as [CreateBlog] did. *)
Theorem Create_then_Read_same_view ctx ctx' req w resp s1 oid raw s2 :
  mongo.insertOne Background (insertData_of req) (collection w) = (Ok resp, s1) ->
  mongo.InsertedID resp = mongo.IdObjectID oid ->
  primitive.wf_oid oid ->
  mongo.findOne Background oid s1 = (Ok raw, s2) ->
  mongo.unmarshal raw
  = Ok {| ID := oid; AuthorID := AuthorID (insertData_of req);
          Content := Content (insertData_of req); Title := Title (insertData_of req) |} ->
  exists view,
    fst (CreateBlog ctx req w) = Response {| blogpb.created_Blog := view |}
    /\ fst (ReadBlog ctx' {| blogpb.read_BlogId := blogpb.Id view |}
              (snd (CreateBlog ctx req w)))
       = Response {| blogpb.found_Blog := view |}.
Proof.
  intros Hins Hid Hwf Hfind Hraw.
  rewrite (CreateBlog_inserted ctx req w resp s1 oid Hins Hid).
  eexists. split; [reflexivity |]. simpl.
  unfold ReadBlog, bind, FindOne, call. simpl.
  rewrite (ObjectIDFromHex_Hex oid Hwf). cbn [collection after].
  rewrite Hfind. cbn [SingleResult_Decode]. rewrite Hraw. reflexivity.
Qed.

(** X19. Update, then read: when the store, after a replace that succeeded,
    hands back under that id the replacement it was given, [ReadBlog]
    called with the id of the [UpdateBlog] response answers with the same
    view as [UpdateBlog] did. *)
Theorem Update_then_Read_same_view ctx ctx' req w oid res s1 raw s2 :
  primitive.ObjectIDFromHex (blogpb.GetId (blogpb.update_Blog req)) = Ok oid ->
  mongo.replaceOne Background oid (replacement_of req) (collection w) = (Ok res, s1) ->
  mongo.findOne Background oid s1 = (Ok raw, s2) ->
  mongo.unmarshal raw
  = Ok {| ID := oid; AuthorID := AuthorID (replacement_of req);
          Content := Content (replacement_of req); Title := Title (replacement_of req) |} ->
  exists view,
    fst (UpdateBlog ctx req w) = Response {| blogpb.updated_Blog := view |}
    /\ fst (ReadBlog ctx' {| blogpb.read_BlogId := blogpb.Id view |}
              (snd (UpdateBlog ctx req w)))
       = Response {| blogpb.found_Blog := view |}.
Proof.
  intros Hid Hrep Hfind Hraw.
  rewrite (UpdateBlog_store_success ctx req w oid res s1 Hid Hrep).
  eexists. split; [reflexivity |]. simpl.
  unfold ReadBlog, bind, FindOne, call. simpl.
  rewrite (ObjectIDFromHex_Hex oid (ObjectIDFromHex_wf _ _ Hid)). cbn [collection after].
  rewrite Hfind. cbn [SingleResult_Decode]. rewrite Hraw. reflexivity.
Qed.

End RoundTrips.

(** ** The further properties at concrete inputs *)

Lemma sample_ids_twelve_bytes :
  primitive.wf_oid sample.oidA /\ primitive.wf_oid (memstore.fresh 9).
Proof.
  split; (split; [reflexivity |]);
    repeat (first [apply Forall_nil | apply Forall_cons; [reflexivity |]]).
Qed.

Lemma CreateBlog_insert_failure_is_Internal_witness :
  fst (CreateBlog sample.ctx sample.create (boot sample.down))
  = Failure (status.Errorf codes.Internal "Interal error: " (Some "connection refused"))
  /\ code_of (fst (CreateBlog sample.ctx sample.create (boot sample.down))) = codes.Internal
  /\ collection (snd (CreateBlog sample.ctx sample.create (boot sample.down))) = sample.down.
Proof.
  apply (@CreateBlog_insert_failure_is_Internal memstore.Store memstore.Raw
           memstore.collection sample.ctx sample.create (boot sample.down)
           "connection refused" sample.down).
  reflexivity.
Defined.

(** The second request carries an id of its own and comes under another
    context. *)
Lemma CreateBlog_reads_three_fields_witness :
  blogpb.GetId (blogpb.create_Blog sample.create)
  <> blogpb.GetId (blogpb.create_Blog more.createWithId)
  /\ CreateBlog sample.ctx sample.create (boot sample.sound)
     = CreateBlog Background more.createWithId (boot sample.sound).
Proof.
  split; [discriminate |].
  apply (@CreateBlog_reads_three_fields memstore.Store memstore.Raw memstore.collection
           sample.ctx Background sample.create more.createWithId (boot sample.sound));
    reflexivity.
Defined.

Lemma unary_handlers_single_call_witness :
  trace (snd (CreateBlog sample.ctx sample.create (boot sample.sound)))
  = [EInsertOne Background (insertData_of sample.create)]
  /\ trace (snd (ReadBlog sample.ctx (sample.read sample.hexA) (boot sample.sound)))
     = [EFindOne Background sample.oidA]
  /\ trace (snd (UpdateBlog sample.ctx (sample.update sample.hexA) (boot sample.sound)))
     = [EReplaceOne Background sample.oidA (replacement_of (sample.update sample.hexA))]
  /\ trace (snd (DeleteBlog sample.ctx (sample.delete sample.hexA) (boot sample.sound)))
     = [EDeleteOne Background sample.oidA].
Proof.
  destruct (@unary_handlers_single_call memstore.Store memstore.Raw memstore.collection)
    as (Hc & Hr & Hu & Hd).
  split; [| split; [| split]].
  - rewrite (proj1 (Hc sample.ctx sample.create (boot sample.sound))). reflexivity.
  - rewrite (Hr sample.ctx (sample.read sample.hexA) (boot sample.sound) sample.oidA eq_refl).
    reflexivity.
  - rewrite (proj1 (Hu sample.ctx (sample.update sample.hexA) (boot sample.sound)
                       sample.oidA eq_refl)).
    reflexivity.
  - rewrite (Hd sample.ctx (sample.delete sample.hexA) (boot sample.sound)
                sample.oidA eq_refl).
    reflexivity.
Defined.

Lemma ReadBlog_returns_stored_record_witness :
  fst (ReadBlog sample.ctx (sample.read sample.hexA_upper) (boot sample.sound))
  = Response {| blogpb.found_Blog :=
                 {| blogpb.Id := primitive.Hex (ID sample.itemA);
                    blogpb.AuthorId := AuthorID sample.itemA;
                    blogpb.Title := Title sample.itemA;
                    blogpb.Content := Content sample.itemA |} |}.
Proof.
  apply (@ReadBlog_returns_stored_record memstore.Store memstore.Raw memstore.collection
           sample.ctx (sample.read sample.hexA_upper) (boot sample.sound)
           sample.oidA sample.docA sample.itemA sample.sound); reflexivity.
Defined.

(** No record under the id, and a store that cannot be reached. *)
Lemma ReadBlog_lookup_error_is_NotFound_witness :
  (fst (ReadBlog sample.ctx (sample.read sample.hexAbsent) (boot sample.sound))
   = Failure (status.Errorf codes.NotFound "Blog not found: " (Some memstore.ErrNoDocuments))
   /\ code_of (fst (ReadBlog sample.ctx (sample.read sample.hexAbsent) (boot sample.sound)))
      = codes.NotFound)
  /\ (fst (ReadBlog sample.ctx (sample.read sample.hexA) (boot sample.down))
      = Failure (status.Errorf codes.NotFound "Blog not found: " (Some "connection refused"))
      /\ code_of (fst (ReadBlog sample.ctx (sample.read sample.hexA) (boot sample.down)))
         = codes.NotFound).
Proof.
  split.
  - eapply (@ReadBlog_lookup_error_is_NotFound memstore.Store memstore.Raw
              memstore.collection sample.ctx (sample.read sample.hexAbsent)
              (boot sample.sound) _ memstore.ErrNoDocuments sample.sound); reflexivity.
  - apply (@ReadBlog_lookup_error_is_NotFound memstore.Store memstore.Raw
             memstore.collection sample.ctx (sample.read sample.hexA)
             (boot sample.down) sample.oidA "connection refused" sample.down); reflexivity.
Defined.

Lemma UpdateBlog_replace_error_is_NotFound_witness :
  fst (UpdateBlog sample.ctx (sample.update sample.hexA) (boot sample.down))
  = Failure (status.Errorf codes.NotFound "Can not update blog : " (Some "connection refused"))
  /\ code_of (fst (UpdateBlog sample.ctx (sample.update sample.hexA) (boot sample.down)))
     = codes.NotFound.
Proof.
  apply (@UpdateBlog_replace_error_is_NotFound memstore.Store memstore.Raw
           memstore.collection sample.ctx (sample.update sample.hexA) (boot sample.down)
           sample.oidA "connection refused" sample.down); reflexivity.
Defined.

(** The request spells the id in upper case; the response has it in lower
    case. *)
Lemma UpdateBlog_response_id_is_canonical_witness :
  blogpb.GetId (blogpb.update_Blog (sample.update sample.hexA_upper)) = sample.hexA_upper
  /\ primitive.Hex sample.oidA = sample.hexA
  /\ exists view,
      fst (UpdateBlog sample.ctx (sample.update sample.hexA_upper) (boot sample.sound))
      = Response {| blogpb.updated_Blog := view |}
      /\ blogpb.Id view = primitive.Hex sample.oidA
      /\ String.length (blogpb.Id view) = 24
      /\ lower_hex_digits (blogpb.Id view) = true
      /\ primitive.ObjectIDFromHex (blogpb.Id view) = Ok sample.oidA.
Proof.
  split; [reflexivity |]. split; [reflexivity |].
  apply (@UpdateBlog_response_id_is_canonical memstore.Store memstore.Raw
           memstore.collection sample.ctx (sample.update sample.hexA_upper)
           (boot sample.sound) sample.oidA
           {| mongo.MatchedCount := 1; mongo.ModifiedCount := 1; mongo.UpsertedCount := 0 |}
           (snd (memstore.replaceOne Background sample.oidA
                   (replacement_of (sample.update sample.hexA_upper)) sample.sound)));
    reflexivity.
Defined.

Lemma blogItemToBlogpb_injective_witness :
  sample.itemA
  = {| ID := sample.oidA; AuthorID := "u1"; Content := "world"; Title := "hello" |}.
Proof.
  apply blogItemToBlogpb_injective.
  - split; [reflexivity |].
    repeat (first [apply Forall_nil | apply Forall_cons; [reflexivity |]]).
  - split; [reflexivity |].
    repeat (first [apply Forall_nil | apply Forall_cons; [reflexivity |]]).
  - reflexivity.
Defined.

Lemma created_id_addresses_assigned_record_witness :
  exists view,
    fst (CreateBlog sample.ctx sample.create (boot sample.sound))
    = Response {| blogpb.created_Blog := view |}
    /\ well_formed (blogpb.Id view) = true
    /\ trace (snd (ReadBlog sample.ctx {| blogpb.read_BlogId := blogpb.Id view |}
                     (boot sample.sound)))
       = [] ++ [EFindOne Background (memstore.fresh 9)]
    /\ trace (snd (DeleteBlog sample.ctx {| blogpb.delete_BlogId := blogpb.Id view |}
                     (boot sample.sound)))
       = [] ++ [EDeleteOne Background (memstore.fresh 9)].
Proof.
  destruct (@created_id_addresses_assigned_record memstore.Store memstore.Raw
              memstore.collection sample.ctx sample.create (boot sample.sound)
              {| mongo.InsertedID := mongo.IdObjectID (memstore.fresh 9) |}
              (snd (memstore.insertOne Background (insertData_of sample.create) sample.sound))
              (memstore.fresh 9) eq_refl eq_refl)
    as (view & Hcreated & Hwf & Hread & _ & Hdelete).
  - split; [reflexivity |].
    repeat (first [apply Forall_nil | apply Forall_cons; [reflexivity |]]).
  - exists view. split; [exact Hcreated |]. split; [exact Hwf |].
    split; [apply Hread | apply Hdelete].
Defined.

Lemma UpdateBlog_view_written_back_witness :
  trace (snd (UpdateBlog sample.ctx
                {| blogpb.update_Blog := Some (blogItemToBlogpb sample.itemA) |}
                (boot sample.sound)))
  = [] ++ [EReplaceOne Background (ID sample.itemA)
             {| ID := primitive.NilObjectID; AuthorID := AuthorID sample.itemA;
                Content := Content sample.itemA; Title := Title sample.itemA |}]
  /\ fst (UpdateBlog sample.ctx
            {| blogpb.update_Blog := Some (blogItemToBlogpb sample.itemA) |}
            (boot sample.sound))
     = Response {| blogpb.updated_Blog := blogItemToBlogpb sample.itemA |}.
Proof.
  destruct (@UpdateBlog_view_written_back memstore.Store memstore.Raw memstore.collection
              sample.ctx (boot sample.sound) sample.itemA) as [Htrace Hreply].
  - split; [reflexivity |].
    repeat (first [apply Forall_nil | apply Forall_cons; [reflexivity |]]).
  - split; [exact Htrace |].
    eapply Hreply. reflexivity.
Defined.

(** 24 characters with a letter that is no hex digit. *)
Lemma InvalidArgument_iff_not_24_hex_digits_witness :
  (String.length more.almostHex =? 24)%nat && hex_digits more.almostHex = false
  /\ code_of (fst (ReadBlog sample.ctx (sample.read more.almostHex) (boot sample.sound)))
     = codes.InvalidArgument
  /\ code_of (fst (UpdateBlog sample.ctx (sample.update more.almostHex) (boot sample.sound)))
     = codes.InvalidArgument
  /\ code_of (fst (DeleteBlog sample.ctx (sample.delete more.almostHex) (boot sample.sound)))
     = codes.InvalidArgument.
Proof.
  destruct (@InvalidArgument_iff_not_24_hex_digits memstore.Store memstore.Raw
              memstore.collection sample.ctx (boot sample.sound) more.almostHex)
    as (Hr & Hu & Hd).
  split; [reflexivity |]. split; [| split].
  - apply (Hr (sample.read more.almostHex) eq_refl). reflexivity.
  - apply (Hu (sample.update more.almostHex) eq_refl). reflexivity.
  - apply (Hd (sample.delete more.almostHex) eq_refl). reflexivity.
Defined.

Lemma requests_without_blog_witness :
  (code_of (fst (UpdateBlog sample.ctx more.updateNothing (boot sample.sound)))
   = codes.InvalidArgument
   /\ snd (UpdateBlog sample.ctx more.updateNothing (boot sample.sound)) = boot sample.sound)
  /\ trace (snd (CreateBlog sample.ctx more.createNothing (boot sample.sound)))
     = [] ++ [EInsertOne Background
                {| ID := primitive.NilObjectID; AuthorID := ""; Content := ""; Title := "" |}].
Proof.
  destruct (@requests_without_blog memstore.Store memstore.Raw memstore.collection
              sample.ctx (boot sample.sound)) as [Hu Hc].
  split.
  - apply Hu. reflexivity.
  - apply Hc. reflexivity.
Defined.

(** The store with a record in the middle that does not decode: the first
    record is sent, with two calls of [Next], and the healthy stream
    delivers it. *)
Lemma ListBlog_sends_in_cursor_order_witness :
  exists good items tail,
    mongo.batch (memstore.scan sample.damaged) = good ++ tail
    /\ Forall2 (fun raw item => mongo.unmarshal raw = Ok item) good items
    /\ (tail = [] \/ exists bad rest e, tail = bad :: rest /\ mongo.unmarshal bad = Fail e)
    /\ sends (trace (snd (ListBlog sample.listAll wire.open (boot sample.damaged))))
       = sends (trace (boot sample.damaged)) ++ map blogItemToBlogpb items
    /\ nexts (trace (snd (ListBlog sample.listAll wire.open (boot sample.damaged))))
       = nexts (trace (boot sample.damaged)) + Datatypes.S (List.length items)
    /\ snd (fst (ListBlog sample.listAll wire.open (boot sample.damaged)))
       = send_all items wire.open.
Proof.
  apply (@ListBlog_sends_in_cursor_order memstore.Store memstore.Raw wire.Stream
           memstore.collection wire.server sample.listAll wire.open (boot sample.damaged)
           (memstore.scan sample.damaged) sample.damaged).
  reflexivity.
Defined.

Lemma ListBlog_find_failure_is_Internal_witness :
  fst (fst (ListBlog sample.listAll wire.open (boot sample.down)))
  = Some (status.Errorf codes.Internal "internal error when find collection: "
            (Some "connection refused"))
  /\ snd (fst (ListBlog sample.listAll wire.open (boot sample.down))) = wire.open
  /\ trace (snd (ListBlog sample.listAll wire.open (boot sample.down)))
     = [] ++ [EFind Background]
  /\ collection (snd (ListBlog sample.listAll wire.open (boot sample.down))) = sample.down.
Proof.
  apply (@ListBlog_find_failure_is_Internal memstore.Store memstore.Raw wire.Stream
           memstore.collection wire.server sample.listAll wire.open (boot sample.down)
           "connection refused" sample.down).
  reflexivity.
Defined.

Lemma ListBlog_cursor_error_after_sending_witness :
  fst (fst (ListBlog sample.listAll wire.open (boot sample.flaky)))
  = Some (status.Errorf codes.Internal "internal error from cursor: "
            (Some "connection reset"))
  /\ sends (trace (snd (ListBlog sample.listAll wire.open (boot sample.flaky))))
     = [] ++ map blogItemToBlogpb [sample.itemA; sample.itemC].
Proof.
  apply (@ListBlog_cursor_error_after_sending memstore.Store memstore.Raw wire.Stream
           memstore.collection wire.server sample.listAll wire.open (boot sample.flaky)
           (memstore.scan sample.flaky) sample.flaky).
  - reflexivity.
  - repeat constructor.
  - reflexivity.
Defined.

Lemma Create_then_Read_same_view_witness :
  exists view,
    fst (CreateBlog sample.ctx sample.create (boot sample.sound))
    = Response {| blogpb.created_Blog := view |}
    /\ fst (ReadBlog Background {| blogpb.read_BlogId := blogpb.Id view |}
              (snd (CreateBlog sample.ctx sample.create (boot sample.sound))))
       = Response {| blogpb.found_Blog := view |}.
Proof.
  apply (@Create_then_Read_same_view memstore.Store memstore.Raw memstore.collection
           sample.ctx Background sample.create (boot sample.sound)
           {| mongo.InsertedID := mongo.IdObjectID (memstore.fresh 9) |}
           (snd (memstore.insertOne Background (insertData_of sample.create) sample.sound))
           (memstore.fresh 9)
           (memstore.Doc (mongo.IdObjectID (memstore.fresh 9)) "u1" "world" "hello")
           (snd (memstore.insertOne Background (insertData_of sample.create) sample.sound))).
  - reflexivity.
  - reflexivity.
  - split; [reflexivity |].
    repeat (first [apply Forall_nil | apply Forall_cons; [reflexivity |]]).
  - reflexivity.
  - reflexivity.
Defined.

Lemma Update_then_Read_same_view_witness :
  exists view,
    fst (UpdateBlog sample.ctx (sample.update sample.hexA_upper) (boot sample.sound))
    = Response {| blogpb.updated_Blog := view |}
    /\ fst (ReadBlog Background {| blogpb.read_BlogId := blogpb.Id view |}
              (snd (UpdateBlog sample.ctx (sample.update sample.hexA_upper)
                      (boot sample.sound))))
       = Response {| blogpb.found_Blog := view |}.
Proof.
  apply (@Update_then_Read_same_view memstore.Store memstore.Raw memstore.collection
           sample.ctx Background (sample.update sample.hexA_upper) (boot sample.sound)
           sample.oidA
           {| mongo.MatchedCount := 1; mongo.ModifiedCount := 1; mongo.UpsertedCount := 0 |}
           (snd (memstore.replaceOne Background sample.oidA
                   (replacement_of (sample.update sample.hexA_upper)) sample.sound))
           (memstore.Doc (mongo.IdObjectID sample.oidA) "u9" "new content" "new title")
           (snd (memstore.replaceOne Background sample.oidA
                   (replacement_of (sample.update sample.hexA_upper)) sample.sound)));
    reflexivity.
Defined.

(** The store with a record in the middle that does not decode: the scan
    ends there with [Internal], after the first record and before the
    third. *)
Lemma ListBlog_decode_failure_witness :
  fst (fst (ListBlog sample.listAll wire.open (boot sample.damaged)))
  = Some (status.Errorf codes.Internal "unable to decode data : " (Some "bad bytes"))
  /\ sends (trace (snd (ListBlog sample.listAll wire.open (boot sample.damaged))))
     = [] ++ map blogItemToBlogpb [sample.itemA].
Proof.
  apply (@ListBlog_decode_failure memstore.Store memstore.Raw wire.Stream
           memstore.collection wire.server sample.listAll wire.open (boot sample.damaged)
           (memstore.scan sample.damaged) sample.damaged
           [sample.docA] [sample.itemA] sample.docB "bad bytes" [sample.docC]);
    try reflexivity.
  repeat constructor.
Defined.
